(** * rg-ai: the analysis pipeline, embedded and verified

    The development follows the Python sources:
    - [src/services/query_refiner.py]  (module [QueryRefiner])
    - [src/utils/prompts.py]           (module [PromptTemplates])
    - [src/services/llm_processor.py]  (module [LLMProcessor])
    - [src/services/formatter.py]      (module [OutputFormatter])
    - [src/routers/ai_routes.py]       (modules [Models] and [Routes])
    - [src/config/settings.py]         (module [Settings])
    - [src/services/communication.py]  (module [CommunicationService])

    Python [str] values are Stdlib [string]s.  A character [ascii] stands
    for the code point of the same number, so the text model covers the
    code points U+0000 .. U+00FF, with the character classes CPython
    assigns to them ([str.isspace], [str.isdigit], [str.isalnum],
    [str.lower], and [\s], [\w] of [re] on [str] patterns).

    The [async] methods run their awaits one after the other and are
    plain sequential computations here; calls to the logger are left out;
    the clock and the backend clients are parameters. *)

From Stdlib Require Import String Ascii List ZArith Bool Lia PrimFloat.
From stdpp Require Import base option list gmap strings pretty.

Local Open Scope string_scope.
Local Open Scope list_scope.
Set Warnings "-register-all".

(** ** Python text primitives *)

Module PyStr.

Definition code (c : ascii) : N := N_of_ascii c.

Definition between (lo hi : N) (c : ascii) : bool :=
  ((lo <=? code c) && (code c <=? hi))%N.

(** [str.isspace] / [\s]: TAB..CR, FS..US, space, NEL, NBSP. *)
Definition isspace (c : ascii) : bool :=
  between 9 13 c || between 28 32 c || between 133 133 c || between 160 160 c.

(** [str.isdigit]: 0-9 and the superscripts 2, 3, 1. *)
Definition isdigit (c : ascii) : bool :=
  between 48 57 c || between 178 179 c || between 185 185 c.

(** [str.isalnum]: letters, digits and the other numeric characters. *)
Definition isalnum (c : ascii) : bool :=
  between 48 57 c || between 65 90 c || between 97 122 c
  || between 170 170 c || between 178 179 c || between 181 181 c
  || between 185 186 c || between 188 190 c || between 192 214 c
  || between 216 246 c || between 248 255 c.

(** [\w]: alphanumeric or underscore. *)
Definition isword (c : ascii) : bool :=
  isalnum c || between 95 95 c.

Definition isupper (c : ascii) : bool :=
  between 65 90 c || between 192 214 c || between 216 222 c.

Definition lower_char (c : ascii) : ascii :=
  if isupper c then ascii_of_N (code c + 32) else c.

Definition space : ascii := " "%char.
Definition hyphen : ascii := "-"%char.
Definition newline : ascii := "010"%char.
Definition NL : string := String newline "".

(** [s.lower()] *)
Fixpoint lower (s : string) : string :=
  match s with
  | "" => ""
  | String c s' => String (lower_char c) (lower s')
  end.

(** [s.lstrip()], [s.rstrip()], [s.strip()] *)
Fixpoint lstrip (s : string) : string :=
  match s with
  | "" => ""
  | String c s' => if isspace c then lstrip s' else s
  end.

Fixpoint rstrip (s : string) : string :=
  match s with
  | "" => ""
  | String c s' =>
      match rstrip s' with
      | "" => if isspace c then "" else String c ""
      | r => String c r
      end
  end.

Definition strip (s : string) : string := rstrip (lstrip s).

(** [s.split(sep)] for a one-character separator: the pieces between
    the separators, empty pieces included ([''.split(sep) = ['']]). *)
Fixpoint split_on (sep : ascii) (s : string) : list string :=
  match s with
  | "" => [""]
  | String c s' =>
      if Ascii.eqb c sep then "" :: split_on sep s'
      else match split_on sep s' with
           | w :: ws => String c w :: ws
           | [] => [String c ""]
           end
  end.

Definition starts_blank (s : string) : bool :=
  match s with
  | "" => true
  | String c _ => isspace c
  end.

(** [s.split()]: the maximal runs of non-whitespace characters. *)
Fixpoint split (s : string) : list string :=
  match s with
  | "" => []
  | String c s' =>
      if isspace c then split s'
      else if starts_blank s' then String c "" :: split s'
      else match split s' with
           | w :: ws => String c w :: ws
           | [] => [String c ""]
           end
  end.

(** [sep.join(ws)] *)
Definition join (sep : string) (ws : list string) : string :=
  String.concat sep ws.

(** [re.sub(r'\s+', ' ', s)]: every maximal whitespace run becomes one
    space; [in_run] records that the previous character was whitespace. *)
Fixpoint sub_ws_runs (in_run : bool) (s : string) : string :=
  match s with
  | "" => ""
  | String c s' =>
      if isspace c
      then (if in_run then sub_ws_runs true s'
            else String space (sub_ws_runs true s'))
      else String c (sub_ws_runs false s')
  end.

(** [re.sub(r'[^\w\s\-]', ' ', s)] *)
Definition keep_char (c : ascii) : bool :=
  isword c || isspace c || Ascii.eqb c hyphen.

Fixpoint sub_special (s : string) : string :=
  match s with
  | "" => ""
  | String c s' =>
      String (if keep_char c then c else space) (sub_special s')
  end.

(** [kw in s] *)
Fixpoint contains (kw s : string) : bool :=
  String.prefix kw s ||
  match s with
  | "" => false
  | String _ s' => contains kw s'
  end.

(** All characters of [s] satisfy [P]. *)
Fixpoint all_chars (P : ascii -> bool) (s : string) : bool :=
  match s with
  | "" => true
  | String c s' => P c && all_chars P s'
  end.

(** No two adjacent characters of [s] are both whitespace. *)
Fixpoint no_double_space (s : string) : bool :=
  match s with
  | "" => true
  | String c s' =>
      negb (isspace c && match s' with
                         | "" => false
                         | String c' _ => isspace c'
                         end)
      && no_double_space s'
  end.

(** [s.upper()], as the code points of the result: the upper-case form
    of a character of U+0000 .. U+00FF can lie outside that range (micro
    sign, y with diaeresis) or have two characters (sharp s). *)
Definition upper_char (c : ascii) : list N :=
  if between 97 122 c || between 224 246 c || between 248 254 c
  then [(code c - 32)%N]
  else if between 181 181 c then [924%N]
  else if between 223 223 c then [83%N; 83%N]
  else if between 255 255 c then [376%N]
  else [code c].

Fixpoint upper (s : string) : list N :=
  match s with
  | "" => []
  | String c s' => upper_char c ++ upper s'
  end.

(** The code points of a text. *)
Fixpoint codes (s : string) : list N :=
  match s with
  | "" => []
  | String c s' => code c :: codes s'
  end.

End PyStr.

(** ** src/services/query_refiner.py *)

Module QueryRefiner.
Import PyStr.

(** [self.stop_words] *)
Definition stop_words : gset string :=
  {[ "a"; "an"; "the"; "is"; "are"; "was"; "were"; "be"; "been";
     "what"; "how"; "where"; "when"; "why"; "which" ]}.

Definition academic_keywords : list string :=
  ["research"; "study"; "paper"; "analysis"; "survey"].

(** [any(keyword in query for keyword in academic_keywords)] *)
Definition has_academic_keyword (query : string) : bool :=
  existsb (fun keyword => contains keyword query) academic_keywords.

Definition _enhance_academic_context (query : string) : string :=
  if negb (has_academic_keyword query) && (length (split query) <? 8)%nat
  then query +:+ " research"
  else query.

(** [w not in self.stop_words or len(w) > 3] *)
Definition keeps (w : string) : bool :=
  bool_decide (w ∉ stop_words) || (3 <? String.length w)%nat.

(** The token list the stop-word step starts from. *)
Definition tokens (query : string) : list string :=
  split (sub_special (sub_ws_runs false (strip (lower query)))).

(** The token list after the stop-word step. *)
Definition kept_words (query : string) : list string :=
  let words := tokens query in
  if (5 <? length words)%nat then List.filter keeps words else words.

(** [refine]: no operation of the [try] block raises on a [str], so the
    [except] branch that returns the original query is never taken. *)
Definition refine (query : string) : string :=
  let refined := strip (lower query) in
  let refined := sub_ws_runs false refined in
  let refined := sub_special refined in
  let words := split refined in
  let words := if (5 <? length words)%nat then List.filter keeps words else words in
  let refined := join " " words in
  _enhance_academic_context refined.

(** [extract_key_terms]: the words of the lowered query that are neither
    stop words nor short. *)
Definition extract_key_terms (query : string) : list string :=
  let words := split (lower query) in
  List.filter (fun w => bool_decide (w ∉ stop_words) && (3 <? String.length w)%nat) words.

End QueryRefiner.

(** ** Python values, exceptions and effects *)

Module Py.
Import PyStr.

(** The values that travel through the pipeline's dictionaries.  A nested
    [dict] value keeps its items in insertion order. *)
Inductive pyval : Type :=
| PNone
| PInt (z : Z)
| PStr (s : string)
| PList (l : list pyval)
| PDict (items : list (string * pyval)).

(** An exception: its class name and its message. *)
Inductive exn : Type := Raise (cls msg : string).

Definition ValueError (msg : string) : exn := Raise "ValueError" msg.
Definition RuntimeError (msg : string) : exn := Raise "RuntimeError" msg.
Definition TypeError (msg : string) : exn := Raise "TypeError" msg.
Definition KeyError (msg : string) : exn := Raise "KeyError" msg.

Definition AttributeError (msg : string) : exn := Raise "AttributeError" msg.

(** [str(e)] *)
Definition message (e : exn) : string :=
  match e with
  | Raise _ msg => msg
  end.

(** A computation that raises or returns. *)
Definition result (A : Type) : Type := exn + A.

Definition squote : ascii := "039"%char.
Definition dquote : ascii := "034"%char.
Definition backslash : ascii := "092"%char.

Definition has_char (c : ascii) (s : string) : bool :=
  negb (all_chars (fun c' => negb (Ascii.eqb c' c)) s).

Definition isprintable (c : ascii) : bool :=
  negb (between 0 31 c || between 127 160 c || between 173 173 c).

Definition hex_digit (n : N) : ascii :=
  if (n <? 10)%N then ascii_of_N (48 + n) else ascii_of_N (87 + n).

Definition repr_char (quote c : ascii) : string :=
  if Ascii.eqb c quote || Ascii.eqb c backslash then String backslash (String c "")
  else if Ascii.eqb c "009"%char then String backslash "t"
  else if Ascii.eqb c "010"%char then String backslash "n"
  else if Ascii.eqb c "013"%char then String backslash "r"
  else if isprintable c then String c ""
  else String backslash
         (String "x" (String (hex_digit (code c / 16))
                             (String (hex_digit (code c mod 16)) ""))).

Fixpoint repr_chars (quote : ascii) (s : string) : string :=
  match s with
  | "" => ""
  | String c s' => repr_char quote c +:+ repr_chars quote s'
  end.

(** [repr(s)] of a [str]: double quotes only when the text has a single
    quote and no double quote. *)
Definition repr_str (s : string) : string :=
  let quote := if has_char squote s && negb (has_char dquote s)
               then dquote else squote in
  String quote (repr_chars quote s +:+ String quote "").

(** [repr(v)] *)
Fixpoint repr (v : pyval) : string :=
  match v with
  | PNone => "None"
  | PInt z => pretty z
  | PStr s => repr_str s
  | PList l => "[" +:+ join ", " (List.map repr l) +:+ "]"
  | PDict items =>
      "{" +:+ join ", " (List.map (fun kv => repr_str (fst kv) +:+ ": " +:+ repr (snd kv)) items)
          +:+ "}"
  end.

(** [str(v)], which is what an f-string field renders. *)
Definition str (v : pyval) : string :=
  match v with
  | PStr s => s
  | _ => repr v
  end.

Definition type_name (v : pyval) : string :=
  match v with
  | PNone => "NoneType"
  | PInt _ => "int"
  | PStr _ => "str"
  | PList _ => "list"
  | PDict _ => "dict"
  end.

Fixpoint chars (s : string) : list string :=
  match s with
  | "" => []
  | String c s' => String c "" :: chars s'
  end.

(** The items [sep.join] accepts must all be [str]. *)
Fixpoint str_items (i : nat) (l : list pyval) : result (list string) :=
  match l with
  | [] => inr []
  | PStr s :: l' =>
      match str_items (S i) l' with
      | inr ss => inr (s :: ss)
      | inl e => inl e
      end
  | v :: _ =>
      inl (TypeError ("sequence item " +:+ pretty i +:+ ": expected str instance, "
                      +:+ type_name v +:+ " found"))
  end.

(** [sep.join(v)] on an arbitrary value: a [str] is joined character by
    character, a [dict] by its keys, and a non-iterable raises. *)
Definition join_val (sep : string) (v : pyval) : result string :=
  match v with
  | PList l =>
      match str_items 0 l with
      | inr ss => inr (join sep ss)
      | inl e => inl e
      end
  | PStr s => inr (join sep (chars s))
  | PDict items => inr (join sep (List.map fst items))
  | PNone | PInt _ => inl (TypeError "can only join an iterable")
  end.

(** [d.get(key, default)] *)
Definition get (d : gmap string pyval) (key : string) (dflt : pyval) : pyval :=
  default dflt (d !! key).

(** [d[key]] *)
Definition getitem (d : gmap string pyval) (key : string) : result pyval :=
  match d !! key with
  | Some v => inr v
  | None => inl (KeyError (repr_str key))
  end.

End Py.

(** Effects: the backends live in a world of type [W]; a call may raise and
    may change the world. *)

Module Eff.
Import Py.

Definition M (W A : Type) : Type := W -> result A * W.

Definition ret {W A} (a : A) : M W A := fun w => (inr a, w).

Definition raise {W A} (e : exn) : M W A := fun w => (inl e, w).

Definition bind {W A B} (m : M W A) (k : A -> M W B) : M W B :=
  fun w =>
    match m w with
    | (inr a, w') => k a w'
    | (inl e, w') => (inl e, w')
    end.

Definition lift {W A} (r : result A) : M W A := fun w => (r, w).

(** [try: body  except Exception as e: logger.error(...); raise]:
    the handler re-raises the exception it caught. *)
Definition try_reraise {W A} (body : M W A) : M W A :=
  fun w =>
    match body w with
    | (inr a, w') => (inr a, w')
    | (inl e, w') => (inl e, w')
    end.


End Eff.

(** stdpp's monad notation [x ← m; k] is used for [Eff.M W]. *)
Global Instance M_ret {W} : MRet (Eff.M W) := fun _ a => Eff.ret a.
Global Instance M_bind {W} : MBind (Eff.M W) := fun _ _ k m => Eff.bind m k.

(** ** src/utils/prompts.py *)

Module PromptTemplates.
Import PyStr.

(** A triple-quoted template, line by line. *)
Definition text (lines : list string) : string := join NL lines.

Definition get_summary_prompt (query papers_text : string) : string :=
  text [ "";
         "You are a research assistant helping to summarize academic papers.";
         "";
         "User's Research Query: " +:+ query;
         "";
         "Research Papers:";
         papers_text;
         "";
         "Task: Provide a comprehensive summary of these research papers in the context of the user's query.";
         "Focus on:";
         "1. Main findings and contributions";
         "2. Methodologies used";
         "3. Key results and conclusions";
         "4. Relevance to the user's query";
         "";
         "Keep the summary concise but informative (300-500 words).";
         "" ].

Definition get_gaps_prompt (query papers_text : string) : string :=
  text [ "";
         "You are a research analyst identifying gaps in current research.";
         "";
         "User's Research Query: " +:+ query;
         "";
         "Research Papers:";
         papers_text;
         "";
         "Task: Identify and list the research gaps based on these papers.";
         "Consider:";
         "1. Areas not adequately addressed";
         "2. Limitations mentioned by authors";
         "3. Future research directions suggested";
         "4. Missing perspectives or methodologies";
         "5. Contradictions or inconsistencies in findings";
         "";
         "Provide 5-7 specific research gaps as a numbered list.";
         "Each gap should be clear, specific, and actionable.";
         "" ].

Definition level_descriptions : gmap string string :=
  {[ "high_school" := "a high school student with basic knowledge";
     "undergraduate" := "an undergraduate student with foundational knowledge";
     "graduate" := "a graduate student with advanced knowledge";
     "phd" := "a PhD researcher with expert-level knowledge";
     "general" := "a general audience with no specialized knowledge" ]}.

(** [level_descriptions.get(education_level, "an undergraduate student")] *)
Definition audience (education_level : string) : string :=
  default "an undergraduate student" (level_descriptions !! education_level).

(** The template of the simplified-explanation prompt around its three
    fields. *)
Definition simplified_explanation_text (query summary audience : string) : string :=
  text [ "";
         "You are an educator explaining research concepts.";
         "";
         "User's Research Query: " +:+ query;
         "";
         "Research Summary:";
         summary;
         "";
         "Target Audience: " +:+ audience;
         "";
         "Task: Explain the research findings in a way that " +:+ audience +:+ " can understand.";
         "";
         "Guidelines:";
         "1. Use appropriate language complexity for the education level";
         "2. Include relevant examples or analogies";
         "3. Avoid jargon unless it's appropriate for the level (then define it)";
         "4. Focus on practical implications and real-world applications";
         "5. Keep it engaging and accessible";
         "";
         "Provide a clear, educational explanation (200-300 words).";
         "" ].

Definition get_simplified_explanation_prompt
    (query summary education_level : string) : string :=
  let audience := audience education_level in
  simplified_explanation_text query summary audience.

Definition get_comparison_prompt (papers_text : string) : string :=
  text [ "";
         "You are a research analyst comparing academic papers.";
         "";
         "Research Papers:";
         papers_text;
         "";
         "Task: Compare and contrast these research papers.";
         "Focus on:";
         "1. Similarities in methodology and approach";
         "2. Differences in findings and conclusions";
         "3. Complementary insights";
         "4. Contradictions or conflicts";
         "5. Evolution of ideas across different publications";
         "";
         "Provide a structured comparison highlighting key similarities and differences.";
         "" ].

Definition get_citation_analysis_prompt (papers_text : string) : string :=
  text [ "";
         "You are a research analyst examining citation patterns and research impact.";
         "";
         "Research Papers:";
         papers_text;
         "";
         "Task: Analyze the citation patterns and research impact.";
         "Consider:";
         "1. Influential papers in the field";
         "2. Common citations across papers";
         "3. Research trends based on publication years";
         "4. Key authors and research groups";
         "5. Emerging vs. established research areas";
         "";
         "Provide insights about the research landscape and key contributors.";
         "" ].

End PromptTemplates.

(** ** src/routers/ai_routes.py: the request models *)

Module Models.
Import Py.

(** [class Paper(BaseModel)] *)
Record Paper : Type := {
  title : string;
  abstract : string;
  authors : option (list string);
  year : option Z;
  url : option string
}.

Definition opt_val {A} (f : A -> pyval) (o : option A) : pyval :=
  match o with
  | Some a => f a
  | None => PNone
  end.

(** [paper.dict()]: every declared field is a key, an unset optional
    field has the value [None]. *)
Definition dict (p : Paper) : gmap string pyval :=
  {[ "title" := PStr (title p);
     "abstract" := PStr (abstract p);
     "authors" := opt_val (fun l => PList (PStr <$> l)) (authors p);
     "year" := opt_val PInt (year p);
     "url" := opt_val PStr (url p) ]}.

(** An element of [papers: List[Any]]: a model instance, which has a
    [dict] method, or a plain mapping, which has none. *)
Inductive paper_arg : Type :=
| Model (p : Paper)
| Mapping (d : gmap string pyval).

End Models.

(** ** src/services/llm_processor.py *)

Module LLMProcessor.
Import PyStr Py Eff Models.

Section Processor.
(** The world the backends act on. *)
Context {W : Type}.

(** The client object: what [generate_content(prompt).text] and
    [chat.completions.create(model, messages).choices[0].message.content]
    yield.  Either call may raise. *)
Record client : Type := {
  generate_content : string -> M W string;
  chat_create : string -> list (string * string) -> M W string
}.

(** The processor after [__init__]: [self.client] is [None] when the
    initialisation of the configured backend failed.  For an unknown
    provider [__init__] sets no client at all; no method reads it then. *)
Record t : Type := {
  provider : string;
  api_key : string;
  model : string;
  client_ : option client
}.

(** [__init__], given what the backend set-up yields for the provider. *)
Definition init (LLM_PROVIDER LLM_API_KEY LLM_MODEL : string)
    (_init_gemini _init_openai : string -> string -> option client) : t :=
  {| provider := LLM_PROVIDER;
     api_key := LLM_API_KEY;
     model := LLM_MODEL;
     client_ :=
       if String.eqb LLM_PROVIDER "gemini" then _init_gemini LLM_API_KEY LLM_MODEL
       else if String.eqb LLM_PROVIDER "openai" then _init_openai LLM_API_KEY LLM_MODEL
       else None |}.

Definition _call_gemini (self : t) (prompt : string) : M W string :=
  match client_ self with
  | None => raise (RuntimeError "Gemini client not initialized")
  | Some c => generate_content c prompt
  end.

Definition _call_openai (self : t) (prompt : string) : M W string :=
  match client_ self with
  | None => raise (RuntimeError "OpenAI client not initialized")
  | Some c =>
      chat_create c (model self)
        [ ("system", "You are a helpful research assistant.");
          ("user", prompt) ]
  end.

Definition _call_llm (self : t) (prompt : string) : M W string :=
  try_reraise
    (if String.eqb (provider self) "gemini" then _call_gemini self prompt
     else if String.eqb (provider self) "openai" then _call_openai self prompt
     else raise (ValueError ("Unsupported LLM provider: " +:+ provider self))).

(** One entry of [_format_papers]. *)
Definition format_paper (i : nat) (paper : paper_arg) : result string :=
  let paper_dict := match paper with
                    | Model p => dict p
                    | Mapping d => d
                    end in
  match join_val ", " (get paper_dict "authors" (PList [])) with
  | inl e => inl e
  | inr authors =>
      inr ("Paper " +:+ pretty i +:+ ":" +:+ NL +:+
           "Title: " +:+ str (get paper_dict "title" (PStr "N/A")) +:+ NL +:+
           "Abstract: " +:+ str (get paper_dict "abstract" (PStr "N/A")) +:+ NL +:+
           "Authors: " +:+ authors +:+ NL +:+
           "Year: " +:+ str (get paper_dict "year" (PStr "N/A")) +:+ NL)
  end.

(** The loop over [enumerate(papers, i)]. *)
Fixpoint format_from (i : nat) (papers : list paper_arg) : result (list string) :=
  match papers with
  | [] => inr []
  | paper :: rest =>
      match format_paper i paper with
      | inl e => inl e
      | inr entry =>
          match format_from (S i) rest with
          | inl e => inl e
          | inr formatted => inr (entry :: formatted)
          end
      end
  end.

Definition _format_papers (papers : list paper_arg) : result string :=
  match format_from 1 papers with
  | inl e => inl e
  | inr formatted => inr (join (NL +:+ NL) formatted)
  end.

Definition _generate_summary (self : t) (query papers_text : string) : M W string :=
  _call_llm self (PromptTemplates.get_summary_prompt query papers_text).

(** Lines 131-132: the response parsed into the list of gaps. *)
Fixpoint numbered_lines (lines : list string) : list string :=
  match lines with
  | [] => []
  | gap :: rest =>
      match strip gap with
      | "" => numbered_lines rest
      | String c _ =>
          if isdigit c then strip gap :: numbered_lines rest
          else numbered_lines rest
      end
  end.

Definition parse_gaps (response : string) : list string :=
  match numbered_lines (split_on newline response) with
  | [] => [response]
  | gaps => gaps
  end.

Definition _extract_research_gaps (self : t) (query papers_text : string)
    : M W (list string) :=
  response ← _call_llm self (PromptTemplates.get_gaps_prompt query papers_text);
  mret (parse_gaps response).

Definition _generate_simplified_explanation (self : t)
    (query summary education_level : string) : M W string :=
  _call_llm self
    (PromptTemplates.get_simplified_explanation_prompt query summary education_level).

Definition analyze_papers (self : t) (query : string) (papers : list paper_arg)
    (education_level : string) : M W (gmap string pyval) :=
  try_reraise
    (papers_text ← lift (_format_papers papers);
     summary ← _generate_summary self query papers_text;
     research_gaps ← _extract_research_gaps self query papers_text;
     simplified_explanation ←
       _generate_simplified_explanation self query summary education_level;
     mret ({[ "summary" := PStr summary;
              "research_gaps" := PList (PStr <$> research_gaps);
              "simplified_explanation" := PStr simplified_explanation;
              "education_level" := PStr education_level ]} : gmap string pyval)).

End Processor.
Arguments client : clear implicits.
Arguments t : clear implicits.

End LLMProcessor.

(** ** src/services/formatter.py *)

Module OutputFormatter.
Import Py.

Definition required_fields : list string :=
  ["summary"; "research_gaps"; "simplified_explanation"].

(** [for field in fields: if field not in output: raise ValueError(...)] *)
Fixpoint check_fields (fields : list string) (output : gmap string pyval)
    : result unit :=
  match fields with
  | [] => inr tt
  | field :: rest =>
      if bool_decide (output !! field = None)
      then inl (ValueError ("Missing required field: " +:+ field))
      else check_fields rest output
  end.

(** [isinstance(v, list)] *)
Definition is_list (v : pyval) : bool :=
  match v with
  | PList _ => true
  | _ => false
  end.

Definition _validate_output (output : gmap string pyval) : result bool :=
  match check_fields required_fields output with
  | inl e => inl e
  | inr _ =>
      match getitem output "research_gaps" with
      | inl e => inl e
      | inr gaps =>
          if negb (is_list gaps)
          then inl (ValueError "research_gaps must be a list")
          else inr true
      end
  end.

(** [format_analysis]; [utcnow] is [datetime.utcnow().isoformat()]. *)
Definition format_analysis (utcnow : string) (analysis_result : gmap string pyval)
    : result (gmap string pyval) :=
  let formatted : gmap string pyval :=
    {[ "summary" := get analysis_result "summary" (PStr "");
       "research_gaps" := get analysis_result "research_gaps" (PList []);
       "simplified_explanation" := get analysis_result "simplified_explanation" (PStr "");
       "education_level" := get analysis_result "education_level" (PStr "undergraduate");
       "metadata" := PDict [ ("processed_at", PStr utcnow);
                             ("version", PStr "1.0.0") ] ]} in
  match _validate_output formatted with
  | inl e => inl e
  | inr _ => inr formatted
  end.

End OutputFormatter.

(** ** src/config/settings.py *)

Module Settings.

(** The fields of [Settings] that [__init__] reads or writes, as
    [super().__init__] has loaded them. *)
Record t : Type := {
  LLM_PROVIDER : string;
  LLM_API_KEY : string;
  LLM_MODEL : string;
  OPENAI_API_KEY : string;
  OPENAI_MODEL : string;
  GEMINI_API_KEY : string;
  GEMINI_MODEL : string
}.

(** [self.LLM_API_KEY = key] *)
Definition set_LLM_API_KEY (key : string) (self : t) : t :=
  {| LLM_PROVIDER := LLM_PROVIDER self;
     LLM_API_KEY := key;
     LLM_MODEL := LLM_MODEL self;
     OPENAI_API_KEY := OPENAI_API_KEY self;
     OPENAI_MODEL := OPENAI_MODEL self;
     GEMINI_API_KEY := GEMINI_API_KEY self;
     GEMINI_MODEL := GEMINI_MODEL self |}.

(** [self.LLM_MODEL = model] *)
Definition set_LLM_MODEL (model : string) (self : t) : t :=
  {| LLM_PROVIDER := LLM_PROVIDER self;
     LLM_API_KEY := LLM_API_KEY self;
     LLM_MODEL := model;
     OPENAI_API_KEY := OPENAI_API_KEY self;
     OPENAI_MODEL := OPENAI_MODEL self;
     GEMINI_API_KEY := GEMINI_API_KEY self;
     GEMINI_MODEL := GEMINI_MODEL self |}.

(** [not s] for a [str]. *)
Definition empty (s : string) : bool := String.eqb s "".

(** Lines 61-69 of [__init__], after the call of [super().__init__]. *)
Definition __init__ (self : t) : t :=
  if String.eqb (LLM_PROVIDER self) "openai" && empty (LLM_API_KEY self) then
    let self := set_LLM_API_KEY (OPENAI_API_KEY self) self in
    if empty (LLM_MODEL self) || String.eqb (LLM_MODEL self) "gemini-2.5-flash"
    then set_LLM_MODEL (OPENAI_MODEL self) self
    else self
  else if String.eqb (LLM_PROVIDER self) "gemini" && empty (LLM_API_KEY self) then
    let self := set_LLM_API_KEY (GEMINI_API_KEY self) self in
    if empty (LLM_MODEL self) || String.eqb (LLM_MODEL self) "gpt-4"
    then set_LLM_MODEL (GEMINI_MODEL self) self
    else self
  else self.

End Settings.

(** ** src/routers/ai_routes.py: the route of the analysis *)

Module Routes.
Import Py Eff Models.

(** [class AnalyzePapersRequest(BaseModel)] *)
Module AnalyzePapersRequest.
Record t : Type := {
  query : string;
  papers : list Paper;
  education_level : string
}.
End AnalyzePapersRequest.

(** [class AnalyzePapersResponse(BaseModel)] *)
Module AnalyzePapersResponse.
Record t : Type := {
  summary : string;
  research_gaps : list string;
  simplified_explanation : string;
  education_level : string
}.
End AnalyzePapersResponse.

(** [fastapi.HTTPException] *)
Record HTTPException : Type := {
  status_code : Z;
  detail : string
}.

(** A value the field type [List[str]] admits. *)
Fixpoint strings (l : list pyval) : option (list string) :=
  match l with
  | [] => Some []
  | PStr s :: l' =>
      match strings l' with
      | Some ss => Some (s :: ss)
      | None => None
      end
  | _ :: _ => None
  end.

Section Route.
Context {W : Type}.

(** The text of the [ValidationError] that the response model raises for
    values that do not fit its fields. *)
Variable validation_error : pyval -> pyval -> pyval -> string.

(** [AnalyzePapersResponse(summary=..., research_gaps=...,
    simplified_explanation=..., education_level=...)]: the model takes a
    [str] for a [str] field and a list of [str] for [List[str]]. *)
Definition AnalyzePapersResponse_new
    (summary research_gaps simplified_explanation : pyval) (education_level : string)
    : result AnalyzePapersResponse.t :=
  match summary, research_gaps, simplified_explanation with
  | PStr s, PList l, PStr x =>
      match strings l with
      | Some gaps =>
          inr {| AnalyzePapersResponse.summary := s;
                 AnalyzePapersResponse.research_gaps := gaps;
                 AnalyzePapersResponse.simplified_explanation := x;
                 AnalyzePapersResponse.education_level := education_level |}
      | None =>
          inl (Raise "ValidationError"
                 (validation_error summary research_gaps simplified_explanation))
      end
  | _, _, _ =>
      inl (Raise "ValidationError"
             (validation_error summary research_gaps simplified_explanation))
  end.

(** The [try] block of the route [analyze_papers]; [utcnow] is the clock
    [format_analysis] reads. *)
Definition analyze_papers_try (llm_processor : LLMProcessor.t W) (utcnow : string)
    (request : AnalyzePapersRequest.t) : M W AnalyzePapersResponse.t :=
  analysis_result ←
    LLMProcessor.analyze_papers llm_processor
      (AnalyzePapersRequest.query request)
      (Model <$> AnalyzePapersRequest.papers request)
      (AnalyzePapersRequest.education_level request);
  formatted_output ← lift (OutputFormatter.format_analysis utcnow analysis_result);
  summary ← lift (getitem formatted_output "summary");
  research_gaps ← lift (getitem formatted_output "research_gaps");
  simplified_explanation ← lift (getitem formatted_output "simplified_explanation");
  lift (AnalyzePapersResponse_new summary research_gaps simplified_explanation
          (AnalyzePapersRequest.education_level request)).

(** [analyze_papers]: the response, or the [HTTPException] the handler
    raises for whatever the [try] block raised. *)
Definition analyze_papers (llm_processor : LLMProcessor.t W) (utcnow : string)
    (request : AnalyzePapersRequest.t) (w : W)
    : (HTTPException + AnalyzePapersResponse.t) * W :=
  match analyze_papers_try llm_processor utcnow request w with
  | (inr response, w') => (inr response, w')
  | (inl e, w') =>
      (inl {| status_code := 500;
              detail := "Failed to analyze papers: " +:+ message e |}, w')
  end.

End Route.

End Routes.

(** ** src/services/communication.py *)

Module CommunicationService.
Import PyStr Py Eff.

(** What [response.json()] yields, and what [json=] takes. *)
Inductive json : Type :=
| JNull
| JBool (b : bool)
| JInt (z : Z)
| JFloat (f : float)
| JStr (s : string)
| JList (l : list json)
| JDict (d : gmap string json).

Definition json_type_name (v : json) : string :=
  match v with
  | JNull => "NoneType"
  | JBool _ => "bool"
  | JInt _ => "int"
  | JFloat _ => "float"
  | JStr _ => "str"
  | JList _ => "list"
  | JDict _ => "dict"
  end.

(** [v.get(key, default)]: only a [dict] has the method. *)
Definition json_get (v : json) (key : string) (dflt : json) : result json :=
  match v with
  | JDict d => inr (default dflt (d !! key))
  | _ => inl (AttributeError ("'" +:+ json_type_name v
                              +:+ "' object has no attribute 'get'"))
  end.

(** [len(v)] *)
Definition len (v : json) : result nat :=
  match v with
  | JStr s => inr (String.length s)
  | JList l => inr (length l)
  | JDict d => inr (size d)
  | _ => inl (TypeError ("object of type '" +:+ json_type_name v
                         +:+ "' has no len()"))
  end.

(** An [httpx.Response]: its status code and what its methods
    [raise_for_status()] and [json()] yield. *)
Record Response : Type := {
  status_code : Z;
  raise_for_status : result unit;
  json_ : result json
}.

(** The service after [__init__]. *)
Record t : Type := {
  backend_url : string;
  scraper_url : string;
  timeout : float
}.


Section Service.
Context {W : Type}.

(** An [httpx.AsyncClient]: [post(url, json=...)] and
    [get(url, params=...)].  Either call may raise. *)
Record AsyncClient : Type := {
  post : string -> json -> M W Response;
  get : string -> option json -> M W Response
}.

(** [httpx.AsyncClient(timeout=...)] *)
Variable AsyncClient_new : float -> AsyncClient.

Definition send_to_backend (self : t) (endpoint : string) (data : gmap string json)
    (method : string) : M W json :=
  try_reraise
    (let url := backend_url self +:+ endpoint in
     let client := AsyncClient_new (timeout self) in
     response ←
       (if bool_decide (upper method = codes "POST")
        then post client url (JDict data)
        else if bool_decide (upper method = codes "GET")
        then get client url (Some (JDict data))
        else raise (ValueError ("Unsupported HTTP method: " +:+ method)));
     _ ← lift (raise_for_status response);
     lift (json_ response)).

(** [request_scraping]; the length of [papers] is computed for the log
    line before [papers] is returned. *)
Definition request_scraping (self : t) (query : string) (max_results : Z) : M W json :=
  try_reraise
    (let url := scraper_url self +:+ "/scrape" in
     let client := AsyncClient_new (timeout self) in
     response ←
       post client url
         (JDict {[ "query" := JStr query; "max_results" := JInt max_results ]});
     _ ← lift (raise_for_status response);
     result ← lift (json_ response);
     papers ← lift (json_get result "papers" (JList []));
     _ ← lift (len papers);
     mret papers).




End Service.
Arguments AsyncClient : clear implicits.

End CommunicationService.

(** ** Properties the specification states, as predicates *)

Module Spec.
Import PyStr Py.

(** The education levels of the audience table. *)
Definition recognized_levels : gset string :=
  {[ "high_school"; "undergraduate"; "graduate"; "phd"; "general" ]}.

(** The table's entry for ["undergraduate"]. *)
Definition undergraduate_phrase : string :=
  "an undergraduate student with foundational knowledge".

(** A line counts as a gap when its trimmed form starts with a digit. *)
Definition digit_led (line : string) : bool :=
  match strip line with
  | "" => false
  | String c _ => isdigit c
  end.

(** The gaps as the specification words them: the digit-led lines,
    trimmed, in order. *)
Definition digit_led_lines (raw : string) : list string :=
  List.map strip (List.filter digit_led (split_on newline raw)).

(** A record the validator has to reject. *)
Definition missing_or_malformed (r : gmap string pyval) : Prop :=
  r !! "summary" = None \/ r !! "research_gaps" = None
  \/ r !! "simplified_explanation" = None
  \/ exists v, r !! "research_gaps" = Some v /\ OutputFormatter.is_list v = false.

(** The character set the specification gives for a normalized query. *)
Definition alnum_space_hyphen (c : ascii) : bool :=
  isalnum c || isspace c || Ascii.eqb c hyphen.

(** The normal form the specification promises for [refine]. *)
Definition normalized_as_specified (r : string) : Prop :=
  lower r = r /\ no_double_space r = true /\ all_chars alnum_space_hyphen r = true.

(** The normal form [refine] has: word characters instead of
    alphanumeric ones. *)
Definition normalized (r : string) : Prop :=
  lower r = r /\ no_double_space r = true /\ all_chars keep_char r = true.

(** A character that [lower] leaves as it is. *)
Definition lowered (c : ascii) : bool := Ascii.eqb (lower_char c) c.

(** The characters of a token of a refined query. *)
Definition token_char (c : ascii) : bool :=
  negb (isspace c) && (keep_char c && lowered c).

(** A token of a refined query: non-empty, of token characters. *)
Definition clean (w : string) : Prop :=
  w <> "" /\ all_chars token_char w = true.

(** Text made of non-empty runs of non-whitespace characters separated by
    single spaces; [after_space] tells that a run has to start here. *)
Fixpoint tidy_from (after_space : bool) (s : string) : bool :=
  match s with
  | "" => negb after_space
  | String c s' =>
      if Ascii.eqb c space then negb after_space && tidy_from true s'
      else negb (isspace c) && tidy_from false s'
  end.

(** A character that is whitespace or that [refine] blanks out. *)
Definition blank_char (c : ascii) : bool := isspace c || negb (keep_char c).

(** The tokens one word of the lowered query contributes. *)
Definition word_tokens (w : string) : list string := split (sub_special w).

(** The entry [_format_papers] writes for a paper model under the number
    [i]. *)
Definition paper_entry (i : nat) (p : Models.Paper) : string :=
  "Paper " +:+ pretty i +:+ ":" +:+ NL +:+
  "Title: " +:+ Models.title p +:+ NL +:+
  "Abstract: " +:+ Models.abstract p +:+ NL +:+
  "Authors: " +:+ join ", " (default [] (Models.authors p)) +:+ NL +:+
  "Year: " +:+ match Models.year p with
               | Some y => pretty y
               | None => "None"
               end +:+ NL.

(** The paper model has a list of authors, be it empty. *)
Definition has_authors (p : Models.Paper) : bool :=
  match Models.authors p with
  | Some _ => true
  | None => false
  end.

(** The text [_format_papers] writes for paper models that all have
    authors: the entries, numbered from 1, with an empty line between
    them. *)
Definition papers_text (ps : list Models.Paper) : string :=
  join (NL +:+ NL) (imap (fun k p => paper_entry (S k) p) ps).

(** The record [analyze_papers] returns. *)
Definition analysis_record (summary : string) (research_gaps : list string)
    (simplified_explanation education_level : string) : gmap string pyval :=
  {[ "summary" := PStr summary;
     "research_gaps" := PList (PStr <$> research_gaps);
     "simplified_explanation" := PStr simplified_explanation;
     "education_level" := PStr education_level ]}.

(** [isinstance(v, str)] *)
Definition is_str (v : pyval) : bool :=
  match v with
  | PStr _ => true
  | _ => false
  end.

(** The entry [_format_papers] writes for a plain mapping whose authors
    are rendered as [authors]. *)
Definition mapping_entry (i : nat) (d : gmap string pyval) (authors : string) : string :=
  "Paper " +:+ pretty i +:+ ":" +:+ NL +:+
  "Title: " +:+ str (get d "title" (PStr "N/A")) +:+ NL +:+
  "Abstract: " +:+ str (get d "abstract" (PStr "N/A")) +:+ NL +:+
  "Authors: " +:+ authors +:+ NL +:+
  "Year: " +:+ str (get d "year" (PStr "N/A")) +:+ NL.

End Spec.

(** A backend that answers every prompt with the same numbered list, and
    a processor around it; the world counts the calls. *)
Module Demo.
Import Py Eff Models.

Definition answer : string := "1. Gap one" +:+ PyStr.NL +:+ "2. Gap two".

Definition echo : LLMProcessor.client nat :=
  {| LLMProcessor.generate_content := fun _ w => (inr answer, S w);
     LLMProcessor.chat_create := fun _ _ w => (inr answer, S w) |}.

Definition ready : LLMProcessor.t nat :=
  LLMProcessor.init "gemini" "key" "gemini-2.5-flash"
    (fun _ _ => Some echo) (fun _ _ => Some echo).

(** A backend whose call number [k] (counted from 0) times out. *)
Definition timeout : exn := Raise "TimeoutError" "deadline exceeded".



Definition degraded (provider : string) : LLMProcessor.t nat :=
  LLMProcessor.init provider "" "gemini-2.5-flash" (fun _ _ => None) (fun _ _ => None).

(** A paper as the route receives it when the request gives only the two
    mandatory fields. *)
Definition bare_paper : Paper :=
  {| title := "T"; abstract := "A"; authors := Some []; year := None; url := None |}.

(** The rendering of [bare_paper] alone. *)
Definition bare_text : string :=
  "Paper 1:" +:+ PyStr.NL +:+ "Title: T" +:+ PyStr.NL +:+ "Abstract: A" +:+ PyStr.NL +:+
  "Authors: " +:+ PyStr.NL +:+ "Year: None" +:+ PyStr.NL.

(** The record [ready] produces for an education level. *)
Definition record_for (education_level : string) : gmap string pyval :=
  {[ "summary" := PStr answer;
     "research_gaps" := PList [PStr "1. Gap one"; PStr "2. Gap two"];
     "simplified_explanation" := PStr answer;
     "education_level" := PStr education_level ]}.

(** A processor for the OpenAI backend around [echo]. *)
Definition ready_openai : LLMProcessor.t nat :=
  LLMProcessor.init "openai" "key" "gpt-4"
    (fun _ _ => None) (fun _ _ => Some echo).

(** A paper whose request gave [null] for the authors. *)
Definition anonymous_paper : Paper :=
  {| title := "T"; abstract := "A"; authors := None; year := None; url := None |}.

(** A request for the analysis of [papers]. *)
Definition request_for (papers : list Paper) (education_level : string)
    : Routes.AnalyzePapersRequest.t :=
  {| Routes.AnalyzePapersRequest.query := "q";
     Routes.AnalyzePapersRequest.papers := papers;
     Routes.AnalyzePapersRequest.education_level := education_level |}.

(** The text of a validation error, for the routes of the examples. *)
Definition invalid (_ _ _ : pyval) : string := "1 validation error".

(** Settings that name the OpenAI provider and give only its own key. *)
Definition openai_settings : Settings.t :=
  {| Settings.LLM_PROVIDER := "openai";
     Settings.LLM_API_KEY := "";
     Settings.LLM_MODEL := "gemini-2.5-flash";
     Settings.OPENAI_API_KEY := "sk-1";
     Settings.OPENAI_MODEL := "gpt-4";
     Settings.GEMINI_API_KEY := "";
     Settings.GEMINI_MODEL := "gemini-2.5-flash" |}.

(** Settings that give the general key and leave the model at its
    default. *)
Definition keyed_settings : Settings.t :=
  {| Settings.LLM_PROVIDER := "openai";
     Settings.LLM_API_KEY := "sk-2";
     Settings.LLM_MODEL := "gemini-2.5-flash";
     Settings.OPENAI_API_KEY := "sk-1";
     Settings.OPENAI_MODEL := "gpt-4";
     Settings.GEMINI_API_KEY := "";
     Settings.GEMINI_MODEL := "gemini-2.5-flash" |}.

(** Settings for Gemini without any key, and settings for a provider the
    service does not know. *)
Definition gemini_settings : Settings.t :=
  {| Settings.LLM_PROVIDER := "gemini";
     Settings.LLM_API_KEY := "";
     Settings.LLM_MODEL := "gpt-4";
     Settings.OPENAI_API_KEY := "sk-1";
     Settings.OPENAI_MODEL := "gpt-4";
     Settings.GEMINI_API_KEY := "";
     Settings.GEMINI_MODEL := "gemini-2.5-flash" |}.

Definition other_settings : Settings.t :=
  {| Settings.LLM_PROVIDER := "claude";
     Settings.LLM_API_KEY := "";
     Settings.LLM_MODEL := "";
     Settings.OPENAI_API_KEY := "sk-1";
     Settings.OPENAI_MODEL := "gpt-4";
     Settings.GEMINI_API_KEY := "g-1";
     Settings.GEMINI_MODEL := "gemini-2.5-flash" |}.

End Demo.

(** A backend and a scraper that answer every request with the same
    body; the world counts the requests. *)
Module DemoHttp.
Import Py Eff CommunicationService.

Definition ok (body : json) : Response :=
  {| status_code := 200; raise_for_status := inr tt; json_ := inr body |}.

Definition server (body : json) (_ : float) : AsyncClient nat :=
  {| post := fun _ _ w => (inr (ok body), S w);
     get := fun _ _ w => (inr (ok body), S w) |}.



Definition service : t :=
  {| backend_url := "http://localhost:8000";
     scraper_url := "http://localhost:8002";
     timeout := 30%float |}.

End DemoHttp.

(** * Theorems *)

Import PyStr Py Eff Models PromptTemplates QueryRefiner LLMProcessor OutputFormatter.
Import Spec Demo.

(** ** Prompt builder *)

(** Claim C3, as stated, fails: for the unrecognized level ["kindergarten"]
    the audience phrase is not the table's ["undergraduate"] entry. *)
Lemma audience_unrecognized_counterexample :
  ("kindergarten" ∉ recognized_levels) /\
  audience "kindergarten" <> undergraduate_phrase.
Proof.
  split.
  - vm_compute. intros H. discriminate H.
  - vm_compute. discriminate.
Qed.

(** The lookup of a level outside the table falls to its default. *)
Lemma audience_default (education_level : string) :
  education_level ∉ recognized_levels ->
  level_descriptions !! education_level = None.
Proof.
  unfold recognized_levels, level_descriptions. intros Hout.
  assert (Hne : forall k, k ∈ recognized_levels -> k <> education_level)
    by (intros k Hk E; apply Hout; rewrite <- E; exact Hk).
  unfold recognized_levels in Hne.
  rewrite !lookup_insert_ne by (apply Hne; set_solver).
  rewrite lookup_singleton_ne by (apply Hne; set_solver).
  reflexivity.
Qed.

(** Claim C3, amended: for every education level outside the recognized set
    the audience phrase is the literal ["an undergraduate student"], the
    default of the table lookup, and the simplified-explanation prompt is
    the template filled with that phrase. *)
Theorem audience_unrecognized (education_level : string) :
  education_level ∉ recognized_levels ->
  audience education_level = "an undergraduate student" /\
  forall query summary,
    get_simplified_explanation_prompt query summary education_level
    = simplified_explanation_text query summary "an undergraduate student".
Proof.
  intros Hout.
  assert (Haudience : audience education_level = "an undergraduate student")
    by (unfold audience; rewrite (audience_default _ Hout); reflexivity).
  split; [exact Haudience|]. intros query summary.
  unfold get_simplified_explanation_prompt. cbv zeta. rewrite Haudience. reflexivity.
Qed.

(** The theorem at the level ["kindergarten"]. *)
Lemma audience_unrecognized_witness :
  audience "kindergarten" = "an undergraduate student" /\
  forall query summary,
    get_simplified_explanation_prompt query summary "kindergarten"
    = simplified_explanation_text query summary "an undergraduate student".
Proof.
  apply (audience_unrecognized "kindergarten").
  vm_compute. intros H. discriminate H.
Defined.

(** ** Model gateway and orchestrator *)

Section GatewayFacts.
Context {W : Type}.

Local Ltac run :=
  unfold analyze_papers, _extract_research_gaps, _generate_summary,
    _generate_simplified_explanation, try_reraise, lift,
    mbind, mret, M_bind, M_ret, bind, ret in *.

(** A handler that re-raises leaves the outcome of its body as it is. *)
Lemma try_reraise_run {A} (body : M W A) (w : W) : try_reraise body w = body w.
Proof. unfold try_reraise. destruct (body w) as [[e|a] w']; reflexivity. Qed.

(** Running [_call_llm] is running the branch its provider selects. *)
Lemma call_llm_eq (self : t W) (prompt : string) (w : W) :
  _call_llm self prompt w =
  (if String.eqb (provider self) "gemini" then _call_gemini self prompt
   else if String.eqb (provider self) "openai" then _call_openai self prompt
   else raise (ValueError ("Unsupported LLM provider: " +:+ provider self))) w.
Proof.
  unfold _call_llm. apply try_reraise_run.
Qed.

(** When the gateway returns, [_extract_research_gaps] returns the parsed
    response. *)
Lemma extract_research_gaps_run (self : t W) (query papers_text response : string)
    (w w' : W) :
  _call_llm self (get_gaps_prompt query papers_text) w = (inr response, w') ->
  _extract_research_gaps self query papers_text w = (inr (parse_gaps response), w').
Proof. intros Hcall. run. rewrite Hcall. reflexivity. Qed.

(** Claim C6: with a recognized provider and no client, [_call_llm] raises
    the "client not initialized" [RuntimeError] of that provider; with a
    provider that is neither ["gemini"] nor ["openai"] it raises the
    "Unsupported LLM provider" [ValueError].  The world is left as it was. *)
Theorem call_llm_unavailable_or_unsupported (self : t W) (prompt : string) (w : W) :
  (provider self = "gemini" -> client_ self = None ->
     _call_llm self prompt w = (inl (RuntimeError "Gemini client not initialized"), w)) /\
  (provider self = "openai" -> client_ self = None ->
     _call_llm self prompt w = (inl (RuntimeError "OpenAI client not initialized"), w)) /\
  (provider self <> "gemini" -> provider self <> "openai" ->
     _call_llm self prompt w =
       (inl (ValueError ("Unsupported LLM provider: " +:+ provider self)), w)).
Proof.
  rewrite call_llm_eq. split; [|split].
  - intros Hp Hc. rewrite Hp. simpl. unfold _call_gemini. rewrite Hc. reflexivity.
  - intros Hp Hc. rewrite Hp. simpl. unfold _call_openai. rewrite Hc. reflexivity.
  - intros Hg Ho.
    apply String.eqb_neq in Hg. apply String.eqb_neq in Ho.
    rewrite Hg, Ho. reflexivity.
Qed.


(** Claim C10: the record a successful [analyze_papers] returns carries the
    [education_level] argument itself, whatever string it is, and
    [format_analysis] hands the same value on. *)
Theorem analyze_papers_education_level_verbatim
    (self : t W) (query : string) (papers : list paper_arg)
    (education_level : string) (w w' : W) (record : gmap string pyval) :
  analyze_papers self query papers education_level w = (inr record, w') ->
  record !! "education_level" = Some (PStr education_level) /\
  forall utcnow formatted,
    OutputFormatter.format_analysis utcnow record = inr formatted ->
    formatted !! "education_level" = Some (PStr education_level).
Proof.
  intros Hrun.
  assert (Hlvl : record !! "education_level" = Some (PStr education_level)).
  { run.
    destruct (_format_papers papers) as [e0|papers_text]; [discriminate|].
    destruct (_call_llm self _ w) as [[e1|summary] w1]; [discriminate|].
    destruct (_call_llm self _ w1) as [[e2|response] w2]; [discriminate|].
    destruct (_call_llm self _ w2) as [[e3|explanation] w3]; [discriminate|].
    injection Hrun as <- <-. reflexivity. }
  split; [exact Hlvl|].
  intros utcnow formatted. unfold OutputFormatter.format_analysis.
  destruct (OutputFormatter._validate_output _); [discriminate|].
  intros [= <-]. unfold get. rewrite Hlvl. reflexivity.
Qed.

End GatewayFacts.

(** The theorem at three processors whose set-up yielded no client. *)
Lemma call_llm_unavailable_or_unsupported_witness :
  _call_llm (degraded "gemini") "p" 0
    = (inl (RuntimeError "Gemini client not initialized"), 0) /\
  _call_llm (degraded "openai") "p" 0
    = (inl (RuntimeError "OpenAI client not initialized"), 0) /\
  _call_llm (degraded "claude") "p" 0
    = (inl (ValueError "Unsupported LLM provider: claude"), 0).
Proof.
  split; [|split].
  - destruct (call_llm_unavailable_or_unsupported (degraded "gemini") "p" 0)
      as (Hgemini & _ & _).
    apply Hgemini; reflexivity.
  - destruct (call_llm_unavailable_or_unsupported (degraded "openai") "p" 0)
      as (_ & Hopenai & _).
    apply Hopenai; reflexivity.
  - destruct (call_llm_unavailable_or_unsupported (degraded "claude") "p" 0)
      as (_ & _ & Hother).
    apply Hother; discriminate.
Defined.


(** The theorem at a run with the unrecognized level ["postdoc"]. *)
Lemma analyze_papers_education_level_verbatim_witness :
  analyze_papers ready "q" [Model bare_paper] "postdoc" 0
    = (inr (record_for "postdoc"), 3) /\
  record_for "postdoc" !! "education_level" = Some (PStr "postdoc").
Proof.
  assert (Hrun : analyze_papers ready "q" [Model bare_paper] "postdoc" 0
                 = (inr (record_for "postdoc"), 3)) by reflexivity.
  split; [exact Hrun|].
  apply (analyze_papers_education_level_verbatim
           ready "q" [Model bare_paper] "postdoc" 0 3 _ Hrun).
Defined.

(** ** Paper serialization *)

(** [sep.join] accepts a list of [str] values as it is. *)
Lemma str_items_strings (i : nat) (l : list string) :
  str_items i (PStr <$> l) = inr l.
Proof.
  revert i. induction l as [|s l IH]; intros i; simpl; [reflexivity|].
  rewrite IH. reflexivity.
Qed.

(** The loop yields one entry per paper, entry [k] being the rendering of
    paper [k] under the number [i + k]. *)
Lemma format_from_entries (papers : list paper_arg) :
  forall i entries,
    format_from i papers = inr entries ->
    length entries = length papers /\
    forall k paper, papers !! k = Some paper ->
      exists entry, entries !! k = Some entry /\ format_paper (i + k) paper = inr entry.
Proof.
  induction papers as [|p rest IH]; intros i entries; simpl.
  - intros [= <-]. split; [reflexivity|]. intros k paper Hk. discriminate Hk.
  - destruct (format_paper i p) as [e|entry] eqn:Hp; [discriminate|].
    destruct (format_from (S i) rest) as [e|formatted] eqn:Hrest; [discriminate|].
    intros [= <-]. destruct (IH _ _ Hrest) as [Hlen Hnth].
    split; [simpl; rewrite Hlen; reflexivity|].
    intros [|k] paper Hk; simpl in *.
    + injection Hk as <-. exists entry. rewrite Nat.add_0_r. auto.
    + destruct (Hnth k paper Hk) as (entry' & He & Hf).
      exists entry'. rewrite Nat.add_succ_r. auto.
Qed.

(** The entry of a model instance whose authors are a list: number,
    title, abstract, the authors joined by a comma and a space, and the
    year, which is rendered [None] when the paper has none. *)
Lemma format_paper_model (i : nat) (p : Paper) (names : list string) :
  authors p = Some names ->
  format_paper i (Model p) =
    inr ("Paper " +:+ pretty i +:+ ":" +:+ NL +:+
         "Title: " +:+ title p +:+ NL +:+
         "Abstract: " +:+ abstract p +:+ NL +:+
         "Authors: " +:+ join ", " names +:+ NL +:+
         "Year: " +:+ match year p with
                      | Some y => pretty y
                      | None => "None"
                      end +:+ NL).
Proof.
  intros Hnames. unfold format_paper, dict, get. rewrite Hnames.
  rewrite lookup_insert_eq.
  rewrite (lookup_insert_ne _ "title" "abstract") by discriminate.
  rewrite lookup_insert_eq.
  rewrite !(lookup_insert_ne _ _ "authors") by discriminate.
  rewrite lookup_insert_eq.
  rewrite !(lookup_insert_ne _ _ "year") by discriminate.
  rewrite lookup_insert_eq.
  simpl. unfold join_val. rewrite str_items_strings.
  destruct (year p); reflexivity.
Qed.

(** Claim C8, at the input where the code departs from it: a paper model
    without a year is rendered with [Year: None], whereas a plain mapping
    without a ["year"] key is rendered with [Year: N/A]. *)
Theorem format_papers_absent_year :
  _format_papers [Model bare_paper] =
    inr ("Paper 1:" +:+ NL +:+ "Title: T" +:+ NL +:+ "Abstract: A" +:+ NL +:+
         "Authors: " +:+ NL +:+ "Year: None" +:+ NL) /\
  _format_papers [Mapping {[ "title" := PStr "T"; "abstract" := PStr "A" ]}] =
    inr ("Paper 1:" +:+ NL +:+ "Title: T" +:+ NL +:+ "Abstract: A" +:+ NL +:+
         "Authors: " +:+ NL +:+ "Year: N/A" +:+ NL).
Proof. split; vm_compute; reflexivity. Qed.

(** ** Output formatter *)

(** Claim C4, as stated, fails: the empty record misses all three fields,
    and [format_analysis] returns a formatted record for it. *)
Lemma format_analysis_missing_counterexample :
  missing_or_malformed ∅ /\
  exists formatted, format_analysis "2025-01-01T00:00:00" ∅ = inr formatted.
Proof.
  split.
  - left. reflexivity.
  - eexists. reflexivity.
Qed.

(** What [format_analysis] validates always has the three required keys. *)
Lemma check_fields_formatted (utcnow : string) (r : gmap string pyval) (v : pyval) :
  _validate_output
    {[ "summary" := get r "summary" (PStr "");
       "research_gaps" := v;
       "simplified_explanation" := get r "simplified_explanation" (PStr "");
       "education_level" := get r "education_level" (PStr "undergraduate");
       "metadata" := PDict [ ("processed_at", PStr utcnow);
                             ("version", PStr "1.0.0") ] ]}
  = if is_list v then inr true else inl (ValueError "research_gaps must be a list").
Proof.
  unfold _validate_output, required_fields, check_fields, getitem.
  rewrite lookup_insert_eq.
  rewrite (lookup_insert_ne _ "summary" "research_gaps") by discriminate.
  rewrite lookup_insert_eq.
  rewrite !(lookup_insert_ne _ _ "simplified_explanation") by discriminate.
  rewrite lookup_insert_eq.
  simpl. destruct (is_list v); reflexivity.
Qed.

(** Claim C4, amended: [_validate_output] rejects every record that misses
    [summary], [research_gaps] or [simplified_explanation], with a
    [ValueError] naming the first missing field, and every record whose
    [research_gaps] is not a list, with a [ValueError] naming
    [research_gaps].  [format_analysis] fills absent fields with their
    defaults before it validates: it fails, with that last error, exactly
    when [research_gaps] is present and not a list, and otherwise returns
    the formatted record. *)
Theorem validate_output_rejects :
  (forall output : gmap string pyval,
     missing_or_malformed output ->
     (output !! "summary" = None /\
      _validate_output output = inl (ValueError "Missing required field: summary")) \/
     (output !! "summary" <> None /\ output !! "research_gaps" = None /\
      _validate_output output
        = inl (ValueError "Missing required field: research_gaps")) \/
     (output !! "summary" <> None /\ output !! "research_gaps" <> None /\
      output !! "simplified_explanation" = None /\
      _validate_output output
        = inl (ValueError "Missing required field: simplified_explanation")) \/
     (output !! "summary" <> None /\ output !! "simplified_explanation" <> None /\
      (exists v, output !! "research_gaps" = Some v /\ is_list v = false) /\
      _validate_output output = inl (ValueError "research_gaps must be a list"))) /\
  (forall utcnow (r : gmap string pyval) v,
     r !! "research_gaps" = Some v -> is_list v = false ->
     format_analysis utcnow r = inl (ValueError "research_gaps must be a list")) /\
  (forall utcnow (r : gmap string pyval),
     (r !! "research_gaps" = None \/ exists l, r !! "research_gaps" = Some (PList l)) ->
     exists formatted,
       format_analysis utcnow r = inr formatted /\
       formatted !! "summary" = Some (get r "summary" (PStr "")) /\
       formatted !! "research_gaps" = Some (get r "research_gaps" (PList [])) /\
       formatted !! "simplified_explanation"
         = Some (get r "simplified_explanation" (PStr ""))).
Proof.
  split; [|split].
  - intros output Hbad.
    unfold _validate_output, required_fields, check_fields, getitem.
    destruct (output !! "summary") as [s|] eqn:Hs; simpl.
    2:{ left. split; reflexivity. }
    destruct (output !! "research_gaps") as [g|] eqn:Hg; simpl.
    2:{ right. left. split; [discriminate|]. split; reflexivity. }
    destruct (output !! "simplified_explanation") as [x|] eqn:Hx; simpl.
    2:{ right. right. left. split; [discriminate|]. split; [discriminate|].
        split; reflexivity. }
    destruct Hbad as [H|[H|[H|(v & Hv & Hnl)]]]; try congruence.
    rewrite Hg in Hv. injection Hv as <-. rewrite Hnl.
    right. right. right. split; [discriminate|]. split; [discriminate|].
    split; [eauto|reflexivity].
  - intros utcnow r v Hv Hnl. unfold format_analysis.
    rewrite check_fields_formatted. unfold get at 1. rewrite Hv. simpl.
    rewrite Hnl. reflexivity.
  - intros utcnow r Hgaps. unfold format_analysis.
    rewrite check_fields_formatted.
    assert (Hl : is_list (get r "research_gaps" (PList [])) = true).
    { unfold get. destruct Hgaps as [->|(l & ->)]; reflexivity. }
    rewrite Hl. eexists. split; [reflexivity|].
    rewrite lookup_insert_eq.
    rewrite (lookup_insert_ne _ "summary" "research_gaps") by discriminate.
    rewrite lookup_insert_eq.
    rewrite !(lookup_insert_ne _ _ "simplified_explanation") by discriminate.
    rewrite lookup_insert_eq. auto.
Qed.

(** The theorem at a record without gaps, at one whose gaps are a string,
    and at one that [format_analysis] completes. *)
Lemma validate_output_rejects_witness :
  _validate_output {[ "summary" := PStr "s" ]}
    = inl (ValueError "Missing required field: research_gaps") /\
  format_analysis "2025-01-01T00:00:00" {[ "research_gaps" := PStr "one gap" ]}
    = inl (ValueError "research_gaps must be a list") /\
  exists formatted,
    format_analysis "2025-01-01T00:00:00" {[ "summary" := PStr "s" ]} = inr formatted /\
    formatted !! "research_gaps" = Some (PList []).
Proof.
  destruct validate_output_rejects as (Hvalidate & Hreject & Hfill).
  split; [|split].
  - destruct (Hvalidate {[ "summary" := PStr "s" ]})
      as [(Hs & _)|[(_ & _ & Hv)|[(_ & Hg & _)|(_ & Hx & _)]]].
    + right. left. reflexivity.
    + exfalso.
      assert (Hsome : ({[ "summary" := PStr "s" ]} : gmap string pyval) !! "summary"
                      = Some (PStr "s")) by reflexivity.
      rewrite Hsome in Hs. discriminate Hs.
    + exact Hv.
    + exfalso. apply Hg. reflexivity.
    + exfalso. apply Hx. reflexivity.
  - apply (Hreject _ _ (PStr "one gap")); reflexivity.
  - destruct (Hfill "2025-01-01T00:00:00" {[ "summary" := PStr "s" ]})
      as (formatted & Hf & _ & Hg & _).
    + left. reflexivity.
    + exists formatted. split; [exact Hf|]. rewrite Hg. reflexivity.
Defined.

(** ** Response extractor *)

Lemma app_String (c : ascii) (s t : string) : String c s +:+ t = String c (s +:+ t).
Proof. reflexivity. Qed.

Lemma app_empty_l (s : string) : "" +:+ s = s.
Proof. reflexivity. Qed.

Lemma app_empty_r (s : string) : s +:+ "" = s.
Proof. induction s as [|c s IH]; [reflexivity|]. rewrite app_String, IH. reflexivity. Qed.

Lemma app_assoc_str (s t u : string) : (s +:+ t) +:+ u = s +:+ (t +:+ u).
Proof.
  induction s as [|c s IH]; [reflexivity|]. rewrite !app_String, IH. reflexivity.
Qed.

(** [split_on] never returns the empty list. *)
Lemma split_on_nonempty (sep : ascii) (s : string) : split_on sep s <> [].
Proof.
  induction s as [|c s IH]; simpl; [discriminate|].
  destruct (Ascii.eqb c sep); [discriminate|].
  destruct (split_on sep s); discriminate.
Qed.

(** Joining the pieces with the separator gives the text back. *)
Lemma split_on_join (sep : ascii) (s : string) :
  join (String sep "") (split_on sep s) = s.
Proof.
  unfold join. induction s as [|c s IH]; [reflexivity|]. simpl.
  destruct (Ascii.eqb_spec c sep) as [->|Hne].
  - pose proof (split_on_nonempty sep s) as Hnil.
    destruct (split_on sep s) as [|w ws]; [congruence|].
    simpl in *. rewrite app_empty_l, app_String, app_empty_l, IH. reflexivity.
  - pose proof (split_on_nonempty sep s) as Hnil.
    destruct (split_on sep s) as [|w ws]; [congruence|].
    simpl in *. destruct ws as [|w' ws].
    + rewrite IH. reflexivity.
    + rewrite app_String, IH. reflexivity.
Qed.

(** No piece contains the separator. *)
Lemma split_on_pieces (sep : ascii) (s : string) :
  Forall (fun piece => all_chars (fun c => negb (Ascii.eqb c sep)) piece = true)
         (split_on sep s).
Proof.
  induction s as [|c s IH]; simpl.
  - constructor; [reflexivity|constructor].
  - destruct (Ascii.eqb c sep) eqn:Hc.
    + constructor; [reflexivity|exact IH].
    + destruct (split_on sep s) as [|w ws]; [repeat constructor; simpl; rewrite Hc; reflexivity|].
      inversion IH as [|? ? Hw Hws]; subst.
      constructor; [simpl; rewrite Hc, Hw; reflexivity|exact Hws].
Qed.

(** [lstrip] removes a whitespace prefix and leaves no leading whitespace. *)
Lemma lstrip_spec (s : string) :
  exists l, s = l +:+ lstrip s /\ all_chars isspace l = true /\
            (lstrip s = "" \/ starts_blank (lstrip s) = false).
Proof.
  induction s as [|c s (l & Hs & Hl & Hhead)]; simpl.
  - exists "". auto.
  - destruct (isspace c) eqn:Hc.
    + exists (String c l). rewrite app_String, <- Hs. simpl. rewrite Hc. auto.
    + exists "". simpl. auto.
Qed.

(** [rstrip] removes a whitespace suffix. *)
Lemma rstrip_spec (s : string) :
  exists r, s = rstrip s +:+ r /\ all_chars isspace r = true.
Proof.
  induction s as [|c s (r & Hs & Hr)]; simpl.
  - exists "". auto.
  - destruct (rstrip s) as [|c' t] eqn:Ht.
    + destruct (isspace c) eqn:Hc.
      * exists (String c s). split; [reflexivity|]. simpl. rewrite Hc.
        rewrite Hs. exact Hr.
      * exists r. rewrite !app_String. rewrite <- Hs. auto.
    + exists r. rewrite app_String, <- Hs. auto.
Qed.

(** What [rstrip] returns is empty or ends in a non-whitespace character:
    stripping it again changes nothing. *)
Lemma rstrip_idem (s : string) : rstrip (rstrip s) = rstrip s.
Proof.
  induction s as [|c s IH]; simpl; [reflexivity|].
  destruct (rstrip s) as [|c' t] eqn:Ht.
  - destruct (isspace c) eqn:Hc; simpl; [reflexivity|]. rewrite Hc. reflexivity.
  - change (rstrip (String c (String c' t))) with
      (match rstrip (String c' t) with
       | "" => if isspace c then "" else String c ""
       | r => String c r
       end).
    rewrite IH. reflexivity.
Qed.

(** [strip] removes whitespace at both ends and nothing else. *)
Lemma strip_spec (s : string) :
  exists l r, s = l +:+ strip s +:+ r /\
              all_chars isspace l = true /\ all_chars isspace r = true /\
              rstrip (strip s) = strip s.
Proof.
  destruct (lstrip_spec s) as (l & Hs & Hl & _).
  destruct (rstrip_spec (lstrip s)) as (r & Hr & Hrs).
  exists l, r. unfold strip. rewrite <- Hr, <- Hs.
  auto using rstrip_idem.
Qed.

(** The comprehension of line 131 is a filter followed by a map. *)
Lemma numbered_lines_filter_map (lines : list string) :
  numbered_lines lines = List.map strip (List.filter digit_led lines).
Proof.
  induction lines as [|gap rest IH]; simpl; [reflexivity|].
  unfold digit_led at 1. destruct (strip gap) as [|c t] eqn:Hg; [exact IH|].
  destruct (isdigit c); simpl; rewrite ?Hg, IH; reflexivity.
Qed.


(** Scenario B of the specification. *)
Example parse_gaps_scenario_B :
  parse_gaps ("1. Lack of longitudinal data" +:+ NL +:+
              "2. No cross-cultural studies" +:+ NL +:+ "Note: see appendix")
  = ["1. Lack of longitudinal data"; "2. No cross-cultural studies"].
Proof. vm_compute. reflexivity. Qed.

(** ** Query normalizer *)

Lemma lower_char_idem (c : ascii) : lower_char (lower_char c) = lower_char c.
Proof. destruct c as [[] [] [] [] [] [] [] []]; vm_compute; reflexivity. Qed.

Lemma space_is_space : isspace space = true.
Proof. reflexivity. Qed.

Lemma eqb_space_isspace (c : ascii) : Ascii.eqb c space = true -> isspace c = true.
Proof. intros H. apply Ascii.eqb_eq in H. subst c. reflexivity. Qed.

Lemma all_chars_weaken (P Q : ascii -> bool) (s : string) :
  (forall c, P c = true -> Q c = true) ->
  all_chars P s = true -> all_chars Q s = true.
Proof.
  intros HPQ. induction s as [|c s IH]; simpl; [reflexivity|].
  intros [Hc Hs]%andb_true_iff. rewrite (HPQ c Hc), (IH Hs). reflexivity.
Qed.

Lemma all_chars_app (P : ascii -> bool) (s t : string) :
  all_chars P (s +:+ t) = all_chars P s && all_chars P t.
Proof.
  induction s as [|c s IH]; [reflexivity|].
  rewrite app_String. simpl. rewrite IH, andb_assoc. reflexivity.
Qed.

Lemma all_chars_lower (s : string) : all_chars lowered (lower s) = true.
Proof.
  induction s as [|c s IH]; simpl; [reflexivity|].
  rewrite IH, andb_true_r. unfold lowered. rewrite lower_char_idem.
  apply Ascii.eqb_refl.
Qed.

Lemma all_chars_lstrip (P : ascii -> bool) (s : string) :
  all_chars P s = true -> all_chars P (lstrip s) = true.
Proof.
  induction s as [|c s IH]; simpl; [reflexivity|].
  intros [Hc Hs]%andb_true_iff.
  destruct (isspace c); [auto|]. simpl. rewrite Hc, Hs. reflexivity.
Qed.

Lemma all_chars_rstrip (P : ascii -> bool) (s : string) :
  all_chars P s = true -> all_chars P (rstrip s) = true.
Proof.
  induction s as [|c s IH]; simpl; [reflexivity|].
  intros [Hc Hs]%andb_true_iff. specialize (IH Hs).
  destruct (rstrip s) as [|c' t].
  - destruct (isspace c); simpl; [reflexivity|]. rewrite Hc. reflexivity.
  - change (all_chars P (String c (String c' t)))
      with (P c && all_chars P (String c' t)).
    rewrite Hc, IH. reflexivity.
Qed.

Lemma all_chars_strip (P : ascii -> bool) (s : string) :
  all_chars P s = true -> all_chars P (strip s) = true.
Proof. intros H. unfold strip. auto using all_chars_rstrip, all_chars_lstrip. Qed.

Lemma all_chars_sub_ws_runs (P : ascii -> bool) (in_run : bool) (s : string) :
  P space = true ->
  all_chars P s = true -> all_chars P (sub_ws_runs in_run s) = true.
Proof.
  intros Hsp. revert in_run.
  induction s as [|c s IH]; intros in_run; [reflexivity|].
  cbn [all_chars sub_ws_runs]. intros [Hc Hs]%andb_true_iff.
  destruct (isspace c).
  - destruct in_run; [exact (IH _ Hs)|]. cbn [all_chars]. rewrite Hsp.
    exact (IH _ Hs).
  - cbn [all_chars]. rewrite Hc. exact (IH _ Hs).
Qed.

Lemma all_chars_sub_special (P : ascii -> bool) (s : string) :
  P space = true ->
  all_chars P s = true ->
  all_chars (fun c => keep_char c && P c) (sub_special s) = true.
Proof.
  intros Hsp. induction s as [|c s IH]; [reflexivity|].
  cbn [all_chars sub_special]. intros [Hc Hs]%andb_true_iff.
  rewrite (IH Hs), andb_true_r.
  destruct (keep_char c) eqn:Hk.
  - rewrite Hk, Hc. reflexivity.
  - rewrite Hsp. reflexivity.
Qed.

(** [lower] and the character substitution leave text alone that is
    already in their image. *)
Lemma lower_fixed (s : string) : all_chars lowered s = true -> lower s = s.
Proof.
  induction s as [|c s IH]; simpl; [reflexivity|].
  intros [Hc Hs]%andb_true_iff. apply Ascii.eqb_eq in Hc.
  rewrite Hc, (IH Hs). reflexivity.
Qed.

Lemma sub_special_fixed (s : string) : all_chars keep_char s = true -> sub_special s = s.
Proof.
  induction s as [|c s IH]; [reflexivity|].
  cbn [all_chars sub_special]. intros [Hc Hs]%andb_true_iff.
  rewrite Hc, (IH Hs). reflexivity.
Qed.

(** The tokens [split] returns are non-empty and free of whitespace, and
    keep every property of the characters of the text. *)
Lemma split_tokens (P : ascii -> bool) (s : string) :
  all_chars P s = true ->
  Forall (fun w => w <> "" /\ all_chars (fun c => negb (isspace c) && P c) w = true)
         (split s).
Proof.
  induction s as [|c s IH]; simpl; [constructor|].
  intros [Hc Hs]%andb_true_iff. specialize (IH Hs).
  destruct (isspace c) eqn:Hsp; [exact IH|].
  assert (Hone : String c "" <> "" /\
                 all_chars (fun c => negb (isspace c) && P c) (String c "") = true).
  { split; [discriminate|]. simpl. rewrite Hsp, Hc. reflexivity. }
  destruct (starts_blank s); [constructor; assumption|].
  destruct (split s) as [|w ws]; [repeat constructor; apply Hone|].
  inversion IH as [|? ? [_ Hw] Hws]; subst.
  constructor; [|exact Hws]. split; [discriminate|].
  simpl. rewrite Hsp, Hc, Hw. reflexivity.
Qed.

(** A token followed by whitespace or by nothing is split off as it is. *)
Lemma split_token_app (w rest : string) :
  w <> "" -> all_chars (fun c => negb (isspace c)) w = true ->
  starts_blank rest = true ->
  split (w +:+ rest) = w :: split rest.
Proof.
  intros Hne Hw Hrest. induction w as [|c w IH]; [congruence|].
  simpl in Hw. apply andb_true_iff in Hw as [Hc Hw]. apply negb_true_iff in Hc.
  rewrite app_String. simpl. rewrite Hc.
  destruct w as [|c' w'].
  - rewrite app_empty_l, Hrest. reflexivity.
  - assert (Hc' : isspace c' = false).
    { simpl in Hw. apply andb_true_iff in Hw as [Hc' _].
      apply negb_true_iff in Hc'. exact Hc'. }
    rewrite app_String. simpl starts_blank. rewrite Hc'.
    rewrite <- app_String, IH by (discriminate || assumption). reflexivity.
Qed.

Lemma join_cons (sep w : string) (ws : list string) :
  ws <> [] -> join sep (w :: ws) = w +:+ sep +:+ join sep ws.
Proof. destruct ws; [congruence|reflexivity]. Qed.

Lemma join_snoc (sep : string) (ws : list string) (x : string) :
  ws <> [] -> join sep (ws ++ [x])%list = join sep ws +:+ sep +:+ x.
Proof.
  induction ws as [|w ws IH]; [congruence|]. intros _.
  destruct ws as [|w' ws].
  - reflexivity.
  - change ((w :: w' :: ws) ++ [x])%list with (w :: ((w' :: ws) ++ [x]))%list.
    rewrite join_cons by discriminate.
    rewrite IH by discriminate.
    rewrite (join_cons sep w (w' :: ws)) by discriminate.
    rewrite !app_assoc_str. reflexivity.
Qed.

Lemma clean_token (w : string) :
  clean w -> w <> "" /\ all_chars (fun c => negb (isspace c)) w = true.
Proof.
  intros [Hne Hw]. split; [exact Hne|].
  apply (all_chars_weaken token_char); [|exact Hw].
  unfold token_char. intros c [H _]%andb_true_iff. exact H.
Qed.

(** Splitting what was joined by single spaces gives the tokens back. *)
Lemma split_join (ws : list string) :
  Forall clean ws -> split (join " " ws) = ws.
Proof.
  induction 1 as [|w ws Hw Hws IH]; [reflexivity|].
  destruct (clean_token w Hw) as [Hne Hns].
  destruct ws as [|w' ws'].
  - change (join " " [w]) with w. rewrite <- (app_empty_r w) at 1.
    rewrite split_token_app by auto. reflexivity.
  - rewrite join_cons by discriminate.
    rewrite split_token_app by auto.
    change (split (" " +:+ join " " (w' :: ws'))) with (split (join " " (w' :: ws'))).
    rewrite IH. reflexivity.
Qed.

Lemma all_chars_join (P : ascii -> bool) (ws : list string) :
  P space = true ->
  Forall (fun w => all_chars P w = true) ws ->
  all_chars P (join " " ws) = true.
Proof.
  unfold space. intros Hsp. induction 1 as [|w ws Hw Hws IH]; [reflexivity|].
  destruct ws as [|w' ws']; [exact Hw|].
  rewrite join_cons by discriminate.
  rewrite !all_chars_app, Hw, IH. simpl. rewrite Hsp. reflexivity.
Qed.

(** Text that is tidy is left alone by the whitespace steps of [refine]. *)
Lemma not_space_neq (c : ascii) : isspace c = false -> Ascii.eqb c space = false.
Proof.
  intros Hc. destruct (Ascii.eqb c space) eqn:He; [|reflexivity].
  apply eqb_space_isspace in He. congruence.
Qed.

Lemma tidy_head (s : string) : tidy_from true s = true -> starts_blank s = false.
Proof.
  destruct s as [|c s]; [discriminate|]. cbn [tidy_from starts_blank].
  destruct (Ascii.eqb c space); [discriminate|].
  intros [Hc _]%andb_true_iff. apply negb_true_iff in Hc. exact Hc.
Qed.

Lemma tidy_sub_ws_runs (a : bool) (s : string) :
  tidy_from a s = true -> sub_ws_runs a s = s.
Proof.
  revert a. induction s as [|c s IH]; intros a; [reflexivity|].
  cbn [tidy_from sub_ws_runs].
  destruct (Ascii.eqb c space) eqn:He.
  - rewrite (eqb_space_isspace c He). apply Ascii.eqb_eq in He. subst c.
    destruct a; [discriminate|]. cbn [negb andb]. intros H. rewrite (IH _ H). reflexivity.
  - intros [Hc H]%andb_true_iff. apply negb_true_iff in Hc. rewrite Hc, (IH _ H).
    reflexivity.
Qed.

Lemma tidy_sub_ws_runs_start (s : string) :
  tidy_from true s = true -> sub_ws_runs false s = s.
Proof.
  intros H. pose proof (tidy_head s H) as Hhead.
  destruct s as [|c s]; [reflexivity|]. cbn [starts_blank] in Hhead.
  cbn [tidy_from] in H. rewrite (not_space_neq c Hhead) in H.
  apply andb_true_iff in H as [_ H].
  cbn [sub_ws_runs]. rewrite Hhead, (tidy_sub_ws_runs _ _ H). reflexivity.
Qed.

Lemma tidy_lstrip (s : string) : tidy_from true s = true -> lstrip s = s.
Proof.
  intros H. pose proof (tidy_head s H) as Hhead.
  destruct s as [|c s]; [reflexivity|]. cbn [starts_blank] in Hhead.
  cbn [lstrip]. rewrite Hhead. reflexivity.
Qed.

Lemma tidy_rstrip (a : bool) (s : string) :
  tidy_from a s = true -> rstrip s = s.
Proof.
  revert a. induction s as [|c s IH]; intros a; [reflexivity|].
  cbn [tidy_from rstrip].
  destruct (Ascii.eqb c space) eqn:He.
  - intros [_ H]%andb_true_iff. rewrite (IH _ H).
    destruct s as [|c' s']; [discriminate H|reflexivity].
  - intros [Hc H]%andb_true_iff. apply negb_true_iff in Hc. rewrite (IH _ H).
    destruct s as [|c' s']; [rewrite Hc|]; reflexivity.
Qed.

Lemma tidy_strip (s : string) : tidy_from true s = true -> strip s = s.
Proof.
  intros H. unfold strip. rewrite (tidy_lstrip s H). exact (tidy_rstrip _ _ H).
Qed.

Lemma tidy_no_double_space (a : bool) (s : string) :
  tidy_from a s = true -> no_double_space s = true.
Proof.
  revert a. induction s as [|c s IH]; intros a; [reflexivity|].
  cbn [tidy_from no_double_space].
  destruct (Ascii.eqb c space) eqn:He.
  - intros [_ H]%andb_true_iff. rewrite (IH _ H), andb_true_r.
    pose proof (tidy_head s H) as Hhead.
    destruct s as [|c' s']; [discriminate H|]. cbn [starts_blank] in Hhead.
    rewrite Hhead, andb_false_r. reflexivity.
  - intros [Hc H]%andb_true_iff. apply negb_true_iff in Hc.
    rewrite Hc, (IH _ H). reflexivity.
Qed.

(** A token in front of tidy text keeps it tidy. *)
Lemma tidy_token_app (a : bool) (w rest : string) :
  w <> "" -> all_chars (fun c => negb (isspace c)) w = true ->
  tidy_from false rest = true ->
  tidy_from a (w +:+ rest) = true.
Proof.
  intros Hne Hw Hrest. revert a. induction w as [|c w IH]; intros a; [congruence|].
  cbn [all_chars] in Hw. apply andb_true_iff in Hw as [Hc Hw].
  rewrite app_String. cbn [tidy_from].
  rewrite (not_space_neq c) by (apply negb_true_iff; exact Hc).
  rewrite Hc. cbn [andb].
  destruct w as [|c' w']; [exact Hrest|]. apply IH; [discriminate|exact Hw].
Qed.

Lemma tidy_join (ws : list string) :
  Forall clean ws -> ws <> [] -> tidy_from true (join " " ws) = true.
Proof.
  induction 1 as [|w ws Hw Hws IH]; [congruence|]. intros _.
  destruct (clean_token w Hw) as [Hne Hns].
  destruct ws as [|w' ws'].
  - change (join " " [w]) with w. rewrite <- (app_empty_r w).
    apply tidy_token_app; auto.
  - rewrite join_cons by discriminate.
    apply tidy_token_app; [exact Hne|exact Hns|].
    change (tidy_from true (join " " (w' :: ws')) = true). apply IH. discriminate.
Qed.

(** *** The shape of a refined query *)

Lemma lowered_space : lowered space = true.
Proof. reflexivity. Qed.

Lemma keep_char_space : keep_char space = true.
Proof. reflexivity. Qed.

Lemma clean_research : clean "research".
Proof. split; [discriminate|vm_compute; reflexivity]. Qed.

Lemma keeps_research : keeps "research" = true.
Proof. vm_compute. reflexivity. Qed.

Lemma clean_lowered (ws : list string) :
  Forall clean ws -> Forall (fun w => all_chars lowered w = true) ws.
Proof.
  intros H. eapply Forall_impl; [exact H|]. intros w [_ Hw].
  apply (all_chars_weaken token_char); [|exact Hw].
  unfold token_char. intros c [_ [_ Hc]%andb_true_iff]%andb_true_iff. exact Hc.
Qed.

Lemma clean_keep_char (ws : list string) :
  Forall clean ws -> Forall (fun w => all_chars keep_char w = true) ws.
Proof.
  intros H. eapply Forall_impl; [exact H|]. intros w [_ Hw].
  apply (all_chars_weaken token_char); [|exact Hw].
  unfold token_char. intros c [_ [Hc _]%andb_true_iff]%andb_true_iff. exact Hc.
Qed.

Lemma tokens_clean (query : string) : Forall clean (tokens query).
Proof.
  unfold tokens.
  assert (Hchars : all_chars (fun c => keep_char c && lowered c)
                     (sub_special (sub_ws_runs false (strip (lower query)))) = true).
  { apply all_chars_sub_special; [exact lowered_space|].
    apply all_chars_sub_ws_runs; [exact lowered_space|].
    apply all_chars_strip, all_chars_lower. }
  eapply Forall_impl; [exact (split_tokens _ _ Hchars)|].
  intros w [Hne Hw]. split; [exact Hne|exact Hw].
Qed.

Lemma filter_Forall {A} (f : A -> bool) (P : A -> Prop) (l : list A) :
  Forall P l -> Forall P (List.filter f l).
Proof.
  induction 1 as [|x l Hx Hl IH]; simpl; [constructor|].
  destruct (f x); [constructor|]; assumption.
Qed.

Lemma filter_kept {A} (f : A -> bool) (l : list A) :
  Forall (fun x => f x = true) (List.filter f l).
Proof.
  induction l as [|x l IH]; simpl; [constructor|].
  destruct (f x) eqn:Hx; [constructor|]; assumption.
Qed.

Lemma filter_all {A} (f : A -> bool) (l : list A) :
  Forall (fun x => f x = true) l -> List.filter f l = l.
Proof.
  induction 1 as [|x l Hx Hl IH]; simpl; [reflexivity|]. rewrite Hx, IH. reflexivity.
Qed.

Lemma kept_words_clean (query : string) : Forall clean (kept_words query).
Proof.
  unfold kept_words. cbv zeta.
  destruct (5 <? length (tokens query))%nat;
    [apply filter_Forall|]; apply tokens_clean.
Qed.

(** The words that come out of the stop-word step are few or hold no stop
    word the step would drop. *)
Lemma kept_words_stable (query : string) :
  (length (kept_words query) <= 5)%nat \/
  Forall (fun w => keeps w = true) (kept_words query).
Proof.
  unfold kept_words. cbv zeta.
  destruct (5 <? length (tokens query))%nat eqn:Hlen.
  - right. apply filter_kept.
  - left. apply Nat.ltb_ge in Hlen. exact Hlen.
Qed.

Lemma refine_eq (query : string) :
  refine query = _enhance_academic_context (join " " (kept_words query)).
Proof. reflexivity. Qed.

Lemma contains_app_r (kw s t : string) :
  contains kw t = true -> contains kw (s +:+ t) = true.
Proof.
  intros H. induction s as [|c s IH]; [exact H|].
  rewrite app_String. cbn [contains]. rewrite IH. apply orb_true_r.
Qed.

Lemma has_keyword_research (x : string) :
  has_academic_keyword (x +:+ " research") = true.
Proof.
  unfold has_academic_keyword, academic_keywords. cbn [existsb].
  rewrite contains_app_r; [reflexivity|]. vm_compute. reflexivity.
Qed.

(** Enhancing twice is enhancing once. *)
Lemma enhance_idem (x : string) :
  _enhance_academic_context (_enhance_academic_context x) = _enhance_academic_context x.
Proof.
  unfold _enhance_academic_context at 2 3.
  destruct (negb (has_academic_keyword x) && (length (split x) <? 8)%nat) eqn:Hc.
  - unfold _enhance_academic_context. rewrite has_keyword_research. reflexivity.
  - unfold _enhance_academic_context. rewrite Hc. reflexivity.
Qed.

(** On the join of clean words, [refine] only runs the enhancement, as long
    as the stop-word step has nothing to drop. *)
Lemma refine_join (ws : list string) :
  Forall clean ws -> ws <> [] ->
  (length ws <= 5)%nat \/ Forall (fun w => keeps w = true) ws ->
  refine (join " " ws) = _enhance_academic_context (join " " ws).
Proof.
  intros Hclean Hne Hstable.
  pose proof (tidy_join ws Hclean Hne) as Htidy.
  unfold refine. cbv zeta.
  rewrite (lower_fixed (join " " ws))
    by (apply all_chars_join; [exact lowered_space|apply clean_lowered, Hclean]).
  rewrite (tidy_strip _ Htidy), (tidy_sub_ws_runs_start _ Htidy).
  rewrite (sub_special_fixed (join " " ws))
    by (apply all_chars_join; [exact keep_char_space|apply clean_keep_char, Hclean]).
  rewrite (split_join ws Hclean).
  destruct (5 <? length ws)%nat eqn:Hlen; [|reflexivity].
  destruct Hstable as [Hsmall|Hkept].
  - apply Nat.ltb_lt in Hlen. lia.
  - rewrite (filter_all _ _ Hkept). reflexivity.
Qed.

(** What [refine] returns: the lone [" research"] when no word is kept,
    and otherwise the kept words, maybe followed by [research], joined by
    single spaces. *)
Lemma refine_shape (query : string) :
  (kept_words query = [] /\ refine query = " research") \/
  (kept_words query <> [] /\
   exists suffix,
     (suffix = [] \/
      suffix = ["research"] /\
      has_academic_keyword (join " " (kept_words query)) = false) /\
     refine query = join " " (kept_words query ++ suffix)).
Proof.
  rewrite refine_eq. destruct (kept_words query) as [|w ws] eqn:Hws.
  - left. split; [reflexivity|]. vm_compute. reflexivity.
  - right. split; [discriminate|]. unfold _enhance_academic_context.
    destruct (has_academic_keyword (join " " (w :: ws))) eqn:Hkw; cbn [negb andb].
    + exists []. rewrite app_nil_r. auto.
    + destruct (length (split (join " " (w :: ws))) <? 8)%nat.
      * exists ["research"]. split; [auto|]. rewrite join_snoc by discriminate.
        reflexivity.
      * exists []. rewrite app_nil_r. auto.
Qed.

Lemma Forall_snoc {A} (P : A -> Prop) (l : list A) (x : A) :
  Forall P l -> P x -> Forall P (l ++ [x]).
Proof. intros Hl Hx. apply Forall_app. split; [exact Hl|]. constructor; [exact Hx|constructor]. Qed.

Lemma clean_suffix (ws suffix : list string) :
  Forall clean ws -> suffix = [] \/ suffix = ["research"] -> Forall clean (ws ++ suffix).
Proof.
  intros Hws [->| ->]; [rewrite app_nil_r; exact Hws|].
  apply Forall_snoc; [exact Hws|exact clean_research].
Qed.

(** Scenario A of the specification. *)
Example refine_scenario_A :
  refine "What Is Quantum   Computing?" = "what is quantum computing research".
Proof. vm_compute. reflexivity. Qed.

(** Claim C7, as stated, fails: an underscore is a word character, so it
    stays in the refined query, and it is neither alphanumeric, nor
    whitespace, nor a hyphen. *)
Lemma refine_underscore_counterexample :
  refine "a_b" = "a_b research" /\ ~ normalized_as_specified (refine "a_b").
Proof.
  split; [vm_compute; reflexivity|].
  intros (_ & _ & Hchars). vm_compute in Hchars. discriminate Hchars.
Qed.

(** Claim C7, amended: for every query the result of [refine] is
    lowercase, has no two adjacent whitespace characters, and has only
    word characters (alphanumeric or underscore), whitespace and hyphens. *)
Theorem refine_normalized (query : string) : normalized (refine query).
Proof.
  destruct (refine_shape query) as [[_ ->]|(Hne & suffix & Hsuffix & ->)].
  - repeat split; vm_compute; reflexivity.
  - assert (Hclean : Forall clean (kept_words query ++ suffix)).
    { apply clean_suffix; [apply kept_words_clean|]. destruct Hsuffix as [?|[? _]]; auto. }
    assert (Hnil : kept_words query ++ suffix <> []).
    { destruct (kept_words query); [congruence|discriminate]. }
    split; [|split].
    + apply lower_fixed, all_chars_join; [exact lowered_space|].
      apply clean_lowered, Hclean.
    + exact (tidy_no_double_space _ _ (tidy_join _ Hclean Hnil)).
    + apply all_chars_join; [exact keep_char_space|]. apply clean_keep_char, Hclean.
Qed.

(** The tokens of a refined query are the kept words, maybe followed by
    [research]. *)
Lemma split_refine (query : string) :
  exists suffix, split (refine query) = kept_words query ++ suffix.
Proof.
  destruct (refine_shape query) as [[Hnil ->]|(Hne & suffix & Hsuffix & ->)].
  - exists ["research"]. rewrite Hnil. vm_compute. reflexivity.
  - exists suffix. apply split_join, clean_suffix; [apply kept_words_clean|].
    destruct Hsuffix as [?|[? _]]; auto.
Qed.

(** Claim C9: when the query has at most 5 tokens the stop-word step keeps
    every token, and they are the leading tokens of the refined query; when
    it has more, a stop word of more than 3 characters is kept, and is a
    token of the refined query. *)
Theorem stop_word_removal_threshold (query : string) :
  ((length (tokens query) <= 5)%nat ->
     kept_words query = tokens query /\
     exists suffix, split (refine query) = tokens query ++ suffix) /\
  ((5 < length (tokens query))%nat ->
     forall w, In w (tokens query) -> w ∈ stop_words -> (3 < String.length w)%nat ->
       In w (kept_words query) /\ In w (split (refine query))).
Proof.
  destruct (split_refine query) as [suffix Hsplit]. split.
  - intros Hlen.
    assert (Hkept : kept_words query = tokens query).
    { unfold kept_words. cbv zeta. apply Nat.ltb_ge in Hlen. rewrite Hlen. reflexivity. }
    split; [exact Hkept|]. exists suffix. rewrite Hsplit, Hkept. reflexivity.
  - intros Hlen w Hw _ Hlong.
    assert (Hkept : In w (kept_words query)).
    { unfold kept_words. cbv zeta. apply Nat.ltb_lt in Hlen. rewrite Hlen.
      apply filter_In. split; [exact Hw|]. unfold keeps.
      apply Nat.ltb_lt in Hlong. rewrite Hlong. apply orb_true_r. }
    split; [exact Hkept|]. rewrite Hsplit. apply in_or_app. left. exact Hkept.
Qed.

(** The theorem at a query of 4 tokens and at one of 7 tokens. *)
Lemma stop_word_removal_threshold_witness :
  (kept_words "What is quantum computing?" = tokens "What is quantum computing?" /\
   exists suffix, split (refine "What is quantum computing?")
                  = tokens "What is quantum computing?" ++ suffix) /\
  (In "were" (kept_words "what were the main causes of inflation") /\
   In "were" (split (refine "what were the main causes of inflation"))).
Proof.
  split.
  - destruct (stop_word_removal_threshold "What is quantum computing?") as [Hfew _].
    apply Hfew. vm_compute. lia.
  - destruct (stop_word_removal_threshold "what were the main causes of inflation")
      as [_ Hmany].
    apply Hmany.
    + vm_compute. lia.
    + vm_compute. auto.
    + vm_compute. reflexivity.
    + vm_compute. lia.
Defined.

(** Claim C2, as stated, fails: five tokens with a short stop word get
    [research] appended, and the six tokens of the result lose the stop
    word when refined again. *)
Lemma refine_idempotent_counterexample :
  refine "a b c d e" = "a b c d e research" /\
  refine (refine "a b c d e") = "b c d e research" /\
  refine (refine "a b c d e") <> refine "a b c d e".
Proof.
  split; [vm_compute; reflexivity|]. split; [vm_compute; reflexivity|].
  vm_compute. discriminate.
Qed.

(** Claim C2, amended: [refine (refine q) = refine q] for every query [q]
    of which at least one token survives the stop-word step, unless [q]
    has exactly 5 tokens, among them a stop word of at most 3 characters,
    and holds no academic keyword. *)
Theorem refine_idempotent (query : string) :
  kept_words query <> [] ->
  (length (tokens query) = 5%nat ->
     Forall (fun w => keeps w = true) (tokens query) \/
     has_academic_keyword (join " " (tokens query)) = true) ->
  refine (refine query) = refine query.
Proof.
  intros Hne Hfive.
  destruct (refine_shape query) as [[Hnil _]|(_ & suffix & Hsuffix & Hrefine)];
    [congruence|].
  assert (Hclean : Forall clean (kept_words query ++ suffix)).
  { apply clean_suffix; [apply kept_words_clean|]. destruct Hsuffix as [?|[? _]]; auto. }
  assert (Hnil : kept_words query ++ suffix <> []).
  { destruct (kept_words query); [congruence|discriminate]. }
  assert (Hstable : (length (kept_words query ++ suffix) <= 5)%nat \/
                    Forall (fun w => keeps w = true) (kept_words query ++ suffix)).
  { destruct Hsuffix as [->|[-> Hkw]].
    - rewrite app_nil_r. apply kept_words_stable.
    - rewrite length_app. cbn [length].
      assert (Hkeep : Forall (fun w => keeps w = true) (kept_words query) ->
                      Forall (fun w => keeps w = true) (kept_words query ++ ["research"]))
        by (intros H; apply Forall_snoc; [exact H|exact keeps_research]).
      destruct (kept_words_stable query) as [Hsmall|Hkept]; [|right; auto].
      revert Hkw Hsmall Hkeep. unfold kept_words. cbv zeta.
      destruct (5 <? length (tokens query))%nat eqn:Hlen.
      + intros _ _ Hkeep. right. apply Hkeep, filter_kept.
      + intros Hkw Hsmall Hkeep.
        destruct (Nat.eq_dec (length (tokens query)) 5) as [Heq|Hneq].
        * destruct (Hfive Heq) as [Hall|Hhas]; [right; auto|congruence].
        * left. lia. }
  rewrite Hrefine at 1. rewrite (refine_join _ Hclean Hnil Hstable).
  rewrite <- Hrefine, refine_eq. apply enhance_idem.
Qed.

(** The theorem at a query of exactly 5 tokens, none a stop word. *)
Lemma refine_idempotent_witness :
  refine (refine "deep learning for protein folding")
  = refine "deep learning for protein folding".
Proof.
  apply (refine_idempotent "deep learning for protein folding").
  - vm_compute. discriminate.
  - intros _. left. vm_compute. repeat constructor.
Defined.

(** ** More on the query refiner *)

Lemma lower_char_not_upper (c : ascii) : isupper c = false -> lower_char c = c.
Proof. unfold lower_char. intros ->. reflexivity. Qed.

(** Splitting what was joined by single spaces gives the words back. *)
Lemma split_join_words (ws : list string) :
  Forall (fun w => w <> "" /\ all_chars (fun c => negb (isspace c)) w = true) ws ->
  split (join " " ws) = ws.
Proof.
  induction 1 as [|w ws [Hne Hns] Hws IH]; [reflexivity|].
  destruct ws as [|w' ws'].
  - change (join " " [w]) with w. rewrite <- (app_empty_r w) at 1.
    rewrite split_token_app by auto. reflexivity.
  - rewrite join_cons by discriminate.
    rewrite split_token_app by auto.
    change (split (" " +:+ join " " (w' :: ws'))) with (split (join " " (w' :: ws'))).
    rewrite IH. reflexivity.
Qed.

(** The words of a lowered text. *)
Lemma split_lower_words (query : string) :
  Forall (fun w => w <> "" /\
                   all_chars (fun c => negb (isspace c) && lowered c) w = true)
         (split (lower query)).
Proof. apply split_tokens, all_chars_lower. Qed.

(** Property X1: every key term is a word of the lowered query that is no stop word
    and has more than 3 characters; it is lowercase and has no whitespace.
    Extracting the key terms of the key terms, joined by single spaces,
    gives the same key terms. *)
Theorem extract_key_terms_stable (query : string) :
  Forall (fun w => In w (split (lower query)) /\ (w ∉ stop_words) /\
                   (3 < String.length w)%nat /\ lower w = w /\
                   all_chars (fun c => negb (isspace c)) w = true)
         (extract_key_terms query) /\
  extract_key_terms (join " " (extract_key_terms query)) = extract_key_terms query.
Proof.
  unfold extract_key_terms at 1 3 4. cbv zeta.
  set (key := fun w : string =>
                bool_decide (w ∉ stop_words) && (3 <? String.length w)%nat).
  pose proof (filter_Forall key _ _ (split_lower_words query)) as Hwords.
  pose proof (filter_kept key (split (lower query))) as Hkept.
  set (terms := List.filter key (split (lower query))) in *.
  assert (Hlow : Forall (fun w => all_chars lowered w = true) terms).
  { eapply Forall_impl; [exact Hwords|]. intros w [_ Hw].
    eapply all_chars_weaken; [|exact Hw].
    intros c [_ Hc]%andb_true_iff. exact Hc. }
  assert (Hns : Forall (fun w => w <> "" /\
                                 all_chars (fun c => negb (isspace c)) w = true) terms).
  { eapply Forall_impl; [exact Hwords|]. intros w [Hne Hw]. split; [exact Hne|].
    eapply all_chars_weaken; [|exact Hw].
    intros c [Hc _]%andb_true_iff. exact Hc. }
  split.
  - apply Stdlib.Lists.List.Forall_forall. intros w Hin.
    split; [exact (proj1 (proj1 (filter_In _ _ _) Hin))|].
    rewrite Stdlib.Lists.List.Forall_forall in Hkept, Hlow, Hns.
    specialize (Hkept w Hin). unfold key in Hkept.
    apply andb_true_iff in Hkept as [Hstop Hlen].
    apply bool_decide_eq_true in Hstop. apply Nat.ltb_lt in Hlen.
    split; [exact Hstop|]. split; [exact Hlen|].
    split; [apply lower_fixed, Hlow, Hin|apply Hns, Hin].
  - unfold extract_key_terms. cbv zeta. fold key.
    rewrite (lower_fixed (join " " terms))
      by (apply all_chars_join; [exact lowered_space|exact Hlow]).
    rewrite (split_join_words terms Hns).
    apply filter_all, Hkept.
Qed.

(** An upper-case letter is a word character. *)
Lemma isupper_keep (c : ascii) :
  isupper c = true -> keep_char c = true /\ isspace c = false.
Proof.
  destruct c as [[] [] [] [] [] [] [] []]; vm_compute; intros H;
    first [discriminate H | split; reflexivity].
Qed.

Lemma blank_char_lower (s : string) :
  all_chars blank_char s = true -> lower s = s.
Proof.
  induction s as [|c s IH]; [reflexivity|].
  cbn [all_chars lower]. intros [Hc Hs]%andb_true_iff.
  rewrite (IH Hs). f_equal. apply lower_char_not_upper.
  destruct (isupper c) eqn:Hup; [|reflexivity].
  destruct (isupper_keep c Hup) as [Hk Hsp].
  unfold blank_char in Hc. rewrite Hk, Hsp in Hc. discriminate Hc.
Qed.

Lemma sub_special_blank (s : string) :
  all_chars blank_char s = true -> all_chars isspace (sub_special s) = true.
Proof.
  induction s as [|c s IH]; [reflexivity|].
  cbn [all_chars sub_special]. intros [Hc Hs]%andb_true_iff.
  rewrite (IH Hs), andb_true_r. unfold blank_char in Hc.
  destruct (keep_char c); [|exact space_is_space].
  rewrite orb_false_r in Hc. exact Hc.
Qed.

Lemma split_blank (s : string) : all_chars isspace s = true -> split s = [].
Proof.
  induction s as [|c s IH]; [reflexivity|].
  cbn [all_chars split]. intros [Hc Hs]%andb_true_iff. rewrite Hc. exact (IH Hs).
Qed.

(** The tokens of a refined query: the kept words, maybe followed by
    [research]. *)
Lemma split_refine_suffix (query : string) :
  exists suffix, (suffix = [] \/ suffix = ["research"]) /\
                 split (refine query) = kept_words query ++ suffix.
Proof.
  destruct (refine_shape query) as [[Hnil ->]|(Hne & suffix & Hsuffix & ->)].
  - exists ["research"]. split; [auto|]. rewrite Hnil. vm_compute. reflexivity.
  - assert (Hs : suffix = [] \/ suffix = ["research"]).
    { destruct Hsuffix as [?|[? _]]; auto. }
    exists suffix. split; [exact Hs|].
    apply split_join, clean_suffix; [apply kept_words_clean|exact Hs].
Qed.

Lemma kept_words_incl (query : string) :
  incl (kept_words query) (tokens query) /\
  (length (kept_words query) <= length (tokens query))%nat.
Proof.
  unfold kept_words. cbv zeta.
  destruct (5 <? length (tokens query))%nat.
  - split; [apply incl_filter|apply List.filter_length_le].
  - split; [apply incl_refl|lia].
Qed.

(** Property X2: the refined query always has a word.  A query made only of
    whitespace and of characters that are neither word characters nor
    hyphens (the empty query too) is refined to [" research"], with its
    leading blank. *)
Theorem refine_never_blank (query : string) :
  split (refine query) <> [] /\
  (all_chars blank_char query = true -> refine query = " research").
Proof.
  split.
  - destruct (refine_shape query) as [[_ ->]|(Hne & _)].
    + vm_compute. discriminate.
    + destruct (split_refine_suffix query) as (suffix & _ & ->).
      destruct (kept_words query); [congruence|discriminate].
  - intros Hblank.
    assert (Htok : tokens query = []).
    { unfold tokens. apply split_blank, sub_special_blank.
      apply all_chars_sub_ws_runs; [reflexivity|].
      apply all_chars_strip. rewrite (blank_char_lower _ Hblank). exact Hblank. }
    destruct (refine_shape query) as [[_ ->]|(Hne & _)]; [reflexivity|].
    exfalso. apply Hne. unfold kept_words. rewrite Htok. reflexivity.
Qed.

(** The theorem at a query of punctuation. *)
Lemma refine_never_blank_witness :
  split (refine "?! ...") <> [] /\ refine "?! ..." = " research".
Proof.
  split.
  - apply (refine_never_blank "?! ...").
  - apply (refine_never_blank "?! ..."). reflexivity.
Defined.

(** Property X3: a refined query names an academic keyword or has at least eight
    words. *)
Theorem refine_academic_context (query : string) :
  has_academic_keyword (refine query) = true \/
  (8 <= length (split (refine query)))%nat.
Proof.
  rewrite refine_eq. unfold _enhance_academic_context.
  destruct (has_academic_keyword (join " " (kept_words query))) eqn:Hkw; cbn [negb andb].
  - left. exact Hkw.
  - destruct (length (split (join " " (kept_words query))) <? 8)%nat eqn:Hlen.
    + left. apply has_keyword_research.
    + right. apply Nat.ltb_ge in Hlen. exact Hlen.
Qed.

(** Property X4: [refine] invents no word but [research]: every word of the
    refined query is a token of the query or is [research], and the
    refined query has at most one word more than the query has tokens. *)
Theorem refine_words_from_query (query : string) :
  Forall (fun w => In w (tokens query) \/ w = "research") (split (refine query)) /\
  (length (split (refine query)) <= S (length (tokens query)))%nat.
Proof.
  destruct (split_refine_suffix query) as (suffix & Hs & ->).
  destruct (kept_words_incl query) as [Hincl Hlen].
  split.
  - apply Forall_app. split.
    + apply Stdlib.Lists.List.Forall_forall. intros w Hin. left. apply Hincl, Hin.
    + destruct Hs as [-> | ->]; [constructor|]. constructor; [right; reflexivity|constructor].
  - rewrite length_app. destruct Hs as [-> | ->]; simpl; lia.
Qed.

(** ** [refine] reads only the words of the lowered query *)

Lemma rstrip_head (s : string) (d : ascii) (r : string) :
  rstrip s = String d r -> exists s', s = String d s'.
Proof.
  destruct s as [|c s']; cbn [rstrip]; [discriminate|].
  intros H. exists s'. f_equal.
  destruct (rstrip s'); [destruct (isspace c)|]; congruence.
Qed.

Lemma rstrip_empty_blank (s : string) : rstrip s = "" -> all_chars isspace s = true.
Proof.
  induction s as [|c s IH]; [reflexivity|]. cbn [rstrip all_chars].
  destruct (rstrip s); [|discriminate].
  destruct (isspace c); [|discriminate]. intros _. apply IH. reflexivity.
Qed.

Lemma blank_starts_blank (s : string) : all_chars isspace s = true -> starts_blank s = true.
Proof.
  destruct s as [|c s]; [reflexivity|]. cbn [all_chars starts_blank].
  intros [Hc _]%andb_true_iff. exact Hc.
Qed.

Lemma split_lstrip (s : string) : split (lstrip s) = split s.
Proof.
  induction s as [|c s IH]; [reflexivity|]. cbn [lstrip].
  destruct (isspace c) eqn:Hc; [|reflexivity].
  cbn [split]. rewrite Hc. exact IH.
Qed.

Lemma split_rstrip (s : string) : split (rstrip s) = split s.
Proof.
  induction s as [|c s IH]; [reflexivity|]. cbn [rstrip].
  destruct (rstrip s) as [|d r] eqn:Hr.
  - pose proof (rstrip_empty_blank s Hr) as Hblank.
    cbn [split]. rewrite (split_blank s Hblank), (blank_starts_blank s Hblank).
    destruct (isspace c) eqn:Hc; [reflexivity|].
    cbn [split starts_blank]. rewrite Hc. reflexivity.
  - destruct (rstrip_head s d r Hr) as [s' ->].
    cbn [split] in *. destruct (isspace c); [exact IH|].
    cbn [starts_blank]. rewrite IH. reflexivity.
Qed.

Lemma split_strip (s : string) : split (strip s) = split s.
Proof. unfold strip. rewrite split_rstrip. apply split_lstrip. Qed.

Lemma starts_blank_sub_ws_runs (s : string) :
  starts_blank (sub_ws_runs false s) = starts_blank s.
Proof.
  destruct s as [|c s]; [reflexivity|]. cbn [sub_ws_runs starts_blank].
  destruct (isspace c) eqn:Hc; cbn [starts_blank]; [exact space_is_space|exact Hc].
Qed.

Lemma split_sub_ws_runs (in_run : bool) (s : string) :
  split (sub_ws_runs in_run s) = split s.
Proof.
  revert in_run. induction s as [|c s IH]; intros in_run; [reflexivity|].
  cbn [sub_ws_runs split]. destruct (isspace c) eqn:Hc.
  - destruct in_run; [apply IH|].
    cbn [split]. rewrite space_is_space. apply IH.
  - cbn [split]. rewrite Hc, starts_blank_sub_ws_runs, IH. reflexivity.
Qed.

Lemma keep_char_isspace (c : ascii) : isspace c = true -> keep_char c = true.
Proof. unfold keep_char. intros ->. rewrite orb_true_r. reflexivity. Qed.

Lemma starts_blank_sub_special (s : string) :
  starts_blank s = true -> starts_blank (sub_special s) = true.
Proof.
  destruct s as [|c s]; [reflexivity|]. cbn [sub_special starts_blank].
  intros Hc. rewrite (keep_char_isspace c Hc). exact Hc.
Qed.

Lemma split_nonblank (d : ascii) (x : string) :
  isspace d = false -> exists w ws, split (String d x) = String d w :: ws.
Proof.
  intros Hd. cbn [split]. rewrite Hd.
  destruct (starts_blank x); [eauto|]. destruct (split x); eauto.
Qed.

Lemma split_cons (c : ascii) (x : string) :
  isspace c = false ->
  split (String c x) =
    if starts_blank x then String c "" :: split x
    else match split x with
         | w :: ws => String c w :: ws
         | [] => [String c ""]
         end.
Proof. intros Hc. cbn [split]. rewrite Hc. reflexivity. Qed.

Lemma split_space (c : ascii) (x : string) :
  isspace c = true -> split (String c x) = split x.
Proof. intros Hc. cbn [split]. rewrite Hc. reflexivity. Qed.

(** Blanking the special characters splits words further, and does nothing
    else to the words. *)
Lemma split_sub_special (s : string) :
  split (sub_special s) = flat_map word_tokens (split s).
Proof.
  induction s as [|c s IH]; [reflexivity|].
  cbn [sub_special]. destruct (isspace c) eqn:Hc.
  - rewrite (keep_char_isspace c Hc), !(split_space c _ Hc). exact IH.
  - rewrite (split_cons c s Hc).
    destruct (starts_blank s) eqn:Hs.
    + cbn [flat_map]. rewrite <- IH. unfold word_tokens. cbn [sub_special].
      destruct (keep_char c).
      * rewrite !(split_cons c _ Hc), (starts_blank_sub_special s Hs). reflexivity.
      * rewrite !(split_space space _ space_is_space). reflexivity.
    + destruct s as [|d s']; [discriminate Hs|]. cbn [starts_blank] in Hs.
      destruct (split_nonblank d s' Hs) as (w & ws & Hsplit).
      rewrite Hsplit in IH |- *. cbn [flat_map] in IH |- *.
      unfold word_tokens in IH at 1. unfold word_tokens at 1.
      cbn [sub_special] in IH |- *.
      set (d' := if keep_char d then d else space) in *.
      destruct (keep_char c).
      * rewrite !(split_cons c _ Hc). cbn [starts_blank]. rewrite IH.
        destruct (isspace d') eqn:Hd'; [reflexivity|].
        destruct (split_nonblank d' (sub_special w) Hd') as (x & xs & ->).
        reflexivity.
      * rewrite !(split_space space _ space_is_space). exact IH.
Qed.

(** The tokens of a query, from the words of the lowered query. *)
Lemma tokens_words (query : string) :
  tokens query = flat_map word_tokens (split (lower query)).
Proof.
  unfold tokens. rewrite split_sub_special, split_sub_ws_runs, split_strip. reflexivity.
Qed.

(** Property X5: [refine] reads only the words of the lowered query: two queries
    with the same words up to letter case, however the words are spaced,
    are refined to the same text. *)
Theorem refine_reads_words (query1 query2 : string) :
  split (lower query1) = split (lower query2) -> refine query1 = refine query2.
Proof.
  intros Hwords. rewrite !refine_eq. unfold kept_words.
  rewrite !tokens_words, Hwords. reflexivity.
Qed.

(** The theorem at two spellings of one query. *)
Lemma refine_reads_words_witness :
  refine "  Protein   FOLDING" = refine "protein folding".
Proof. apply refine_reads_words. reflexivity. Defined.

(** ** Substrings *)

Lemma prefix_split (kw s : string) :
  String.prefix kw s = true <-> exists r, s = kw +:+ r.
Proof.
  revert s. induction kw as [|a kw IH]; intros s.
  - split; [intros _; exists s; reflexivity|intros _; destruct s; reflexivity].
  - destruct s as [|b s]; cbn [String.prefix].
    + split; [discriminate|]. intros [r Hr]. discriminate Hr.
    + destruct (ascii_dec a b) as [->|Hab].
      * rewrite IH. split; intros [r Hr]; exists r.
        -- rewrite app_String. f_equal. exact Hr.
        -- rewrite app_String in Hr. injection Hr as Hr. exact Hr.
      * split; [discriminate|]. intros [r Hr]. rewrite app_String in Hr. congruence.
Qed.

(** [kw in s] holds exactly when [s] is some text, then [kw], then some
    text. *)
Lemma contains_iff (kw s : string) :
  contains kw s = true <-> exists l r, s = l +:+ kw +:+ r.
Proof.
  split.
  - induction s as [|c s IH]; cbn [contains].
    + rewrite orb_false_r. intros [r Hr]%prefix_split. exists "", r. exact Hr.
    + intros [[r Hr]%prefix_split|H]%orb_true_iff.
      * exists "", r. exact Hr.
      * destruct (IH H) as (l & r & ->). exists (String c l), r. reflexivity.
  - intros (l & r & ->). apply contains_app_r.
    assert (Hp : String.prefix kw (kw +:+ r) = true) by (apply prefix_split; eauto).
    destruct (kw +:+ r); cbn [contains]; rewrite Hp; reflexivity.
Qed.

Lemma contains_refl (s : string) : contains s s = true.
Proof. apply contains_iff. exists "", "". rewrite app_empty_r. reflexivity. Qed.

Lemma contains_app_l (kw s t : string) :
  contains kw s = true -> contains kw (s +:+ t) = true.
Proof.
  intros (l & r & ->)%contains_iff. apply contains_iff.
  exists l, (r +:+ t). rewrite !app_assoc_str. reflexivity.
Qed.

Lemma contains_trans (a b c : string) :
  contains a b = true -> contains b c = true -> contains a c = true.
Proof.
  intros (l & r & ->)%contains_iff (l' & r' & ->)%contains_iff. apply contains_iff.
  exists (l' +:+ l), (r +:+ r'). rewrite !app_assoc_str. reflexivity.
Qed.

(** A text that occurs in one of the joined pieces occurs in the join. *)
Lemma contains_join (kw sep w : string) (ws : list string) :
  In w ws -> contains kw w = true -> contains kw (join sep ws) = true.
Proof.
  intros Hin Hkw. induction ws as [|x ws IH]; [destruct Hin|].
  destruct ws as [|y ws].
  - destruct Hin as [->|[]]. exact Hkw.
  - rewrite join_cons by discriminate. destruct Hin as [->|Hin].
    + apply contains_app_l, Hkw.
    + apply contains_app_r, contains_app_r, IH, Hin.
Qed.

Lemma contains_line (kw line : string) (lines : list string) :
  In line lines -> contains kw line = true -> contains kw (text lines) = true.
Proof. apply contains_join. Qed.

Lemma contains_field (label value : string) : contains value (label +:+ value) = true.
Proof. apply contains_app_r, contains_refl. Qed.

(** Property X6: every prompt template holds its arguments verbatim: the query and
    the text of the papers, the summary, and the audience phrase of the
    education level. *)
Theorem prompts_hold_arguments (query papers_text summary education_level : string) :
  (contains query (get_summary_prompt query papers_text) = true /\
   contains papers_text (get_summary_prompt query papers_text) = true) /\
  (contains query (get_gaps_prompt query papers_text) = true /\
   contains papers_text (get_gaps_prompt query papers_text) = true) /\
  (contains query (get_simplified_explanation_prompt query summary education_level) = true /\
   contains summary (get_simplified_explanation_prompt query summary education_level) = true /\
   contains (audience education_level)
     (get_simplified_explanation_prompt query summary education_level) = true) /\
  contains papers_text (get_comparison_prompt papers_text) = true /\
  contains papers_text (get_citation_analysis_prompt papers_text) = true.
Proof.
  unfold get_summary_prompt, get_gaps_prompt, get_simplified_explanation_prompt,
    simplified_explanation_text, get_comparison_prompt, get_citation_analysis_prompt.
  cbv zeta.
  repeat split;
    first
      [ apply (contains_line _ ("User's Research Query: " +:+ query));
        [cbn [In]; auto 10|apply contains_field]
      | apply (contains_line _ papers_text); [cbn [In]; auto 10|apply contains_refl]
      | apply (contains_line _ summary); [cbn [In]; auto 10|apply contains_refl]
      | apply (contains_line _ ("Target Audience: " +:+ audience education_level));
        [cbn [In]; auto 12|apply contains_field] ].
Qed.

(** ** More on the processor *)

Section ProcessorFacts.
Context {W : Type}.

(** What [analyze_papers] runs, stage by stage. *)
Lemma analyze_papers_eq (self : t W) (query : string) (papers : list paper_arg)
    (education_level : string) (w : W) :
  analyze_papers self query papers education_level w =
  match _format_papers papers with
  | inl e => (inl e, w)
  | inr papers_text =>
      match _call_llm self (get_summary_prompt query papers_text) w with
      | (inl e, w1) => (inl e, w1)
      | (inr summary, w1) =>
          match _call_llm self (get_gaps_prompt query papers_text) w1 with
          | (inl e, w2) => (inl e, w2)
          | (inr response, w2) =>
              match _call_llm self
                      (get_simplified_explanation_prompt query summary education_level)
                      w2 with
              | (inl e, w3) => (inl e, w3)
              | (inr explanation, w3) =>
                  (inr (analysis_record summary (parse_gaps response) explanation
                          education_level), w3)
              end
          end
      end
  end.
Proof.
  unfold analyze_papers, _extract_research_gaps, _generate_summary,
    _generate_simplified_explanation, try_reraise, lift,
    mbind, mret, M_bind, M_ret, bind, ret.
  destruct (_format_papers papers) as [e0|papers_text]; [reflexivity|].
  destruct (_call_llm self _ w) as [[e1|summary] w1]; [reflexivity|].
  destruct (_call_llm self _ w1) as [[e2|response] w2]; [reflexivity|].
  destruct (_call_llm self _ w2) as [[e3|explanation] w3]; reflexivity.
Qed.

(** Property X7: with a client at hand, [_call_llm] makes exactly the one call of
    its provider: [generate_content] with the prompt for Gemini, the chat
    completion with the configured model, the system line and the prompt
    for OpenAI; outcome and world are those of that call. *)
Theorem call_llm_delegates (self : t W) (c : client W) (prompt : string) (w : W) :
  client_ self = Some c ->
  (provider self = "gemini" ->
     _call_llm self prompt w = generate_content c prompt w) /\
  (provider self = "openai" ->
     _call_llm self prompt w =
       chat_create c (model self)
         [ ("system", "You are a helpful research assistant."); ("user", prompt) ] w).
Proof.
  intros Hc. rewrite call_llm_eq. split; intros ->; cbn [String.eqb Ascii.eqb Bool.eqb];
    unfold _call_gemini, _call_openai; rewrite Hc; reflexivity.
Qed.

(** Property X8: when the papers are formatted and the three calls succeed one
    after the other, the second from the world the first left and the
    third, with the summary in its prompt, from the world the second left,
    [analyze_papers] returns the record of the summary, the parsed gaps,
    the explanation and the education level, in the world the third call
    left. *)
Theorem analyze_papers_success
    (self : t W) (query : string) (papers : list paper_arg)
    (education_level papers_text summary response explanation : string)
    (w w1 w2 w3 : W) :
  _format_papers papers = inr papers_text ->
  _call_llm self (get_summary_prompt query papers_text) w = (inr summary, w1) ->
  _call_llm self (get_gaps_prompt query papers_text) w1 = (inr response, w2) ->
  _call_llm self (get_simplified_explanation_prompt query summary education_level) w2
    = (inr explanation, w3) ->
  analyze_papers self query papers education_level w =
    (inr {[ "summary" := PStr summary;
            "research_gaps" := PList (PStr <$> parse_gaps response);
            "simplified_explanation" := PStr explanation;
            "education_level" := PStr education_level ]}, w3).
Proof.
  intros Htext Hsummary Hgaps Hexplanation.
  rewrite analyze_papers_eq, Htext, Hsummary, Hgaps, Hexplanation. reflexivity.
Qed.

End ProcessorFacts.

(** The theorem at the two processors around [echo]. *)
Lemma call_llm_delegates_witness :
  _call_llm ready "p" 0 = generate_content echo "p" 0 /\
  _call_llm ready_openai "p" 0 =
    chat_create echo "gpt-4"
      [ ("system", "You are a helpful research assistant."); ("user", "p") ] 0.
Proof.
  split.
  - destruct (call_llm_delegates ready echo "p" 0) as [Hgemini _]; [reflexivity|].
    apply Hgemini. reflexivity.
  - destruct (call_llm_delegates ready_openai echo "p" 0) as [_ Hopenai]; [reflexivity|].
    apply Hopenai. reflexivity.
Defined.

(** The theorem at a run of [ready]. *)
Lemma analyze_papers_success_witness :
  analyze_papers ready "q" [Model bare_paper] "phd" 0 =
    (inr {[ "summary" := PStr answer;
            "research_gaps" := PList (PStr <$> parse_gaps answer);
            "simplified_explanation" := PStr answer;
            "education_level" := PStr "phd" ]}, 3).
Proof.
  apply (analyze_papers_success ready "q" [Model bare_paper] "phd" bare_text
           answer answer answer 0 1 2 3); reflexivity.
Defined.

(** ** Paper models *)

Lemma format_paper_authors_none (i : nat) (p : Paper) :
  has_authors p = false ->
  format_paper i (Model p) = inl (TypeError "can only join an iterable").
Proof.
  unfold has_authors. destruct (authors p) eqn:Hnone; [discriminate|]. intros _.
  unfold format_paper, dict, get. rewrite Hnone.
  rewrite !(lookup_insert_ne _ _ "authors") by discriminate.
  rewrite lookup_insert_eq. reflexivity.
Qed.

Lemma format_paper_entry (i : nat) (p : Paper) :
  has_authors p = true -> format_paper i (Model p) = inr (paper_entry i p).
Proof.
  unfold has_authors. destruct (authors p) as [names|] eqn:Hnames; [|discriminate].
  intros _. rewrite (format_paper_model i p names Hnames).
  unfold paper_entry. rewrite Hnames. reflexivity.
Qed.

Lemma format_from_models (ps : list Paper) (i : nat) :
  format_from i (Model <$> ps) =
    if forallb has_authors ps
    then inr (imap (fun k p => paper_entry (i + k) p) ps)
    else inl (TypeError "can only join an iterable").
Proof.
  revert i. induction ps as [|p ps IH]; intros i; [reflexivity|].
  cbn [fmap list_fmap format_from forallb].
  destruct (has_authors p) eqn:Hp; cbn [andb].
  - rewrite (format_paper_entry i p Hp), IH.
    destruct (forallb has_authors ps); [|reflexivity].
    cbn [imap]. rewrite Nat.add_0_r. do 2 f_equal.
    apply imap_ext. intros k x _. cbn. rewrite Nat.add_succ_r. reflexivity.
  - rewrite (format_paper_authors_none i p Hp). reflexivity.
Qed.

(** Property X9: on paper models [_format_papers] fails exactly when some paper has
    no list of authors, with the [TypeError] of the join; otherwise it
    returns the entries of the papers, numbered from 1 in the order of the
    list and separated by an empty line (the empty text for no paper). *)
Theorem format_papers_models (ps : list Paper) :
  _format_papers (Model <$> ps) =
    if forallb has_authors ps
    then inr (papers_text ps)
    else inl (TypeError "can only join an iterable").
Proof.
  unfold _format_papers. rewrite format_from_models.
  destruct (forallb has_authors ps); reflexivity.
Qed.

Lemma In_imap {A B} (f : nat -> A -> B) (x : A) (l : list A) :
  In x l -> exists k, In (f k x) (imap f l).
Proof.
  revert f. induction l as [|y l IH]; intros f; [intros []|].
  intros [->|Hin].
  - exists 0%nat. left. reflexivity.
  - destruct (IH (f ∘ S) Hin) as [k Hk]. exists (S k). right. exact Hk.
Qed.

Lemma paper_entry_mentions (i : nat) (p : Paper) :
  contains (title p) (paper_entry i p) = true /\
  contains (abstract p) (paper_entry i p) = true.
Proof.
  unfold paper_entry. split.
  - do 5 apply contains_app_r. apply contains_app_l, contains_refl.
  - do 8 apply contains_app_r. apply contains_app_l, contains_refl.
Qed.

Lemma summary_prompt_holds_text (query papers_text : string) :
  contains papers_text (get_summary_prompt query papers_text) = true.
Proof.
  apply (contains_line _ papers_text); [cbn [In]; auto 10|apply contains_refl].
Qed.

Lemma gaps_prompt_holds_text (query papers_text : string) :
  contains papers_text (get_gaps_prompt query papers_text) = true.
Proof.
  apply (contains_line _ papers_text); [cbn [In]; auto 10|apply contains_refl].
Qed.

(** Property X10: when [_format_papers] accepts the paper models of a request, the
    title and the abstract of every paper stand verbatim in the summary
    prompt and in the gaps prompt. *)
Theorem papers_reach_prompts (ps : list Paper) (text query : string) (p : Paper) :
  _format_papers (Model <$> ps) = inr text ->
  In p ps ->
  (contains (title p) (get_summary_prompt query text) = true /\
   contains (abstract p) (get_summary_prompt query text) = true) /\
  (contains (title p) (get_gaps_prompt query text) = true /\
   contains (abstract p) (get_gaps_prompt query text) = true).
Proof.
  unfold _format_papers. rewrite format_from_models.
  destruct (forallb has_authors ps); [|discriminate].
  fold (papers_text ps). intros [= <-] Hin.
  destruct (In_imap (fun k p => paper_entry (S k) p) p ps Hin) as [k Hk].
  destruct (paper_entry_mentions (S k) p) as [Ht Ha].
  assert (Htitle : contains (title p) (papers_text ps) = true)
    by exact (contains_join _ _ _ _ Hk Ht).
  assert (Habstract : contains (abstract p) (papers_text ps) = true)
    by exact (contains_join _ _ _ _ Hk Ha).
  pose proof (summary_prompt_holds_text query (papers_text ps)) as Hs.
  pose proof (gaps_prompt_holds_text query (papers_text ps)) as Hg.
  repeat split; eapply contains_trans; eassumption.
Qed.

(** The theorem at the request with [bare_paper]. *)
Lemma papers_reach_prompts_witness :
  (contains "T" (get_summary_prompt "q" bare_text) = true /\
   contains "A" (get_summary_prompt "q" bare_text) = true) /\
  (contains "T" (get_gaps_prompt "q" bare_text) = true /\
   contains "A" (get_gaps_prompt "q" bare_text) = true).
Proof.
  apply (papers_reach_prompts [bare_paper] bare_text "q" bare_paper).
  - vm_compute. reflexivity.
  - left. reflexivity.
Defined.

(** ** More on the formatter and the route *)

Lemma get_lookup (d : gmap string pyval) (key : string) (v dflt : pyval) :
  d !! key = Some v -> get d key dflt = v.
Proof. unfold get. intros ->. reflexivity. Qed.

(** The formatted record, from the four values and the clock. *)
Lemma format_analysis_eq (utcnow : string) (r : gmap string pyval) :
  format_analysis utcnow r =
    if is_list (get r "research_gaps" (PList []))
    then inr {[ "summary" := get r "summary" (PStr "");
                "research_gaps" := get r "research_gaps" (PList []);
                "simplified_explanation" := get r "simplified_explanation" (PStr "");
                "education_level" := get r "education_level" (PStr "undergraduate");
                "metadata" := PDict [ ("processed_at", PStr utcnow);
                                      ("version", PStr "1.0.0") ] ]}
    else inl (ValueError "research_gaps must be a list").
Proof.
  unfold format_analysis. rewrite check_fields_formatted.
  destruct (is_list (get r "research_gaps" (PList []))); reflexivity.
Qed.

(** Property X11: a record that [format_analysis] returns has exactly the five
    keys [summary], [research_gaps], [simplified_explanation],
    [education_level] and [metadata], whatever other keys the input had;
    its gaps are a list, its education level is that of the input or
    [undergraduate] when the input has none, its metadata are the clock
    value and the version;
    it passes [_validate_output], and formatting it again under the same
    clock value returns it unchanged. *)
Theorem format_analysis_output (utcnow : string) (r formatted : gmap string pyval) :
  format_analysis utcnow r = inr formatted ->
  dom formatted =@{gset string}
    {[ "summary"; "research_gaps"; "simplified_explanation"; "education_level";
       "metadata" ]} /\
  (exists l, formatted !! "research_gaps" = Some (PList l)) /\
  formatted !! "education_level"
    = Some (get r "education_level" (PStr "undergraduate")) /\
  formatted !! "metadata"
    = Some (PDict [ ("processed_at", PStr utcnow); ("version", PStr "1.0.0") ]) /\
  _validate_output formatted = inr true /\
  format_analysis utcnow formatted = inr formatted.
Proof.
  rewrite format_analysis_eq.
  destruct (is_list (get r "research_gaps" (PList []))) eqn:Hl; [|discriminate].
  intros [= <-].
  split; [|split; [|split; [|split; [|split]]]].
  - rewrite !dom_insert_L, dom_singleton_L. set_solver.
  - destruct (get r "research_gaps" (PList [])) as [| | |l|] eqn:Hg; try discriminate Hl.
    exists l. rewrite (lookup_insert_ne _ "summary" "research_gaps") by discriminate.
    rewrite lookup_insert_eq. reflexivity.
  - rewrite !(lookup_insert_ne _ _ "education_level") by discriminate.
    apply lookup_insert_eq.
  - rewrite !(lookup_insert_ne _ _ "metadata") by discriminate.
    apply lookup_singleton_eq.
  - rewrite check_fields_formatted, Hl. reflexivity.
  - rewrite format_analysis_eq.
    rewrite !(get_lookup _ "summary" _ _ (lookup_insert_eq _ _ _)).
    rewrite !(get_lookup _ "research_gaps" (get r "research_gaps" (PList [])))
      by (rewrite (lookup_insert_ne _ "summary" "research_gaps") by discriminate;
          apply lookup_insert_eq).
    rewrite !(get_lookup _ "simplified_explanation"
                (get r "simplified_explanation" (PStr "")))
      by (rewrite !(lookup_insert_ne _ _ "simplified_explanation") by discriminate;
          apply lookup_insert_eq).
    rewrite !(get_lookup _ "education_level"
                (get r "education_level" (PStr "undergraduate")))
      by (rewrite !(lookup_insert_ne _ _ "education_level") by discriminate;
          apply lookup_insert_eq).
    rewrite Hl. reflexivity.
Qed.

(** The theorem at a record with a key the formatter does not know. *)
Lemma format_analysis_output_witness :
  exists formatted,
    format_analysis "2025-01-01T00:00:00" {[ "summary" := PStr "s"; "extra" := PInt 1 ]}
      = inr formatted /\
    dom formatted =@{gset string}
      {[ "summary"; "research_gaps"; "simplified_explanation"; "education_level";
         "metadata" ]}.
Proof.
  eexists. split; [reflexivity|].
  refine (proj1 (format_analysis_output "2025-01-01T00:00:00"
                   {[ "summary" := PStr "s"; "extra" := PInt 1 ]} _ _)).
  reflexivity.
Defined.



Section RouteFacts.
Context {W : Type}.
Variable validation_error : pyval -> pyval -> pyval -> string.


(** The route on a request whose analysis raised. *)
Lemma route_raises (self : t W) (utcnow : string)
    (request : Routes.AnalyzePapersRequest.t) (e : exn) (w w' : W) :
  analyze_papers self
    (Routes.AnalyzePapersRequest.query request)
    (Model <$> Routes.AnalyzePapersRequest.papers request)
    (Routes.AnalyzePapersRequest.education_level request) w
  = (inl e, w') ->
  Routes.analyze_papers validation_error self utcnow request w =
    (inl {| Routes.status_code := 500;
            Routes.detail := "Failed to analyze papers: " +:+ message e |}, w').
Proof.
  intros Hrun.
  unfold Routes.analyze_papers, Routes.analyze_papers_try, mbind, M_bind, bind.
  rewrite Hrun. reflexivity.
Qed.


(** Property X13: a request with a paper whose [authors] is [None] is never
    analysed: the processor raises the [TypeError] of the join before any
    call of the backend, and the route answers with status 500 and the
    detail [Failed to analyze papers: can only join an iterable]. *)
Theorem authors_none_fails (self : t W) (utcnow : string)
    (request : Routes.AnalyzePapersRequest.t) (w : W) :
  forallb has_authors (Routes.AnalyzePapersRequest.papers request) = false ->
  analyze_papers self
    (Routes.AnalyzePapersRequest.query request)
    (Model <$> Routes.AnalyzePapersRequest.papers request)
    (Routes.AnalyzePapersRequest.education_level request) w
  = (inl (TypeError "can only join an iterable"), w) /\
  Routes.analyze_papers validation_error self utcnow request w =
    (inl {| Routes.status_code := 500;
            Routes.detail := "Failed to analyze papers: can only join an iterable" |}, w).
Proof.
  intros Hnone.
  assert (Hrun : analyze_papers self
                   (Routes.AnalyzePapersRequest.query request)
                   (Model <$> Routes.AnalyzePapersRequest.papers request)
                   (Routes.AnalyzePapersRequest.education_level request) w
                 = (inl (TypeError "can only join an iterable"), w)).
  { rewrite analyze_papers_eq.
    unfold _format_papers. rewrite format_from_models, Hnone. reflexivity. }
  split; [exact Hrun|]. exact (route_raises _ _ _ _ _ _ Hrun).
Qed.

End RouteFacts.


(** The theorem at a request whose second paper has no authors. *)
Lemma authors_none_fails_witness :
  analyze_papers ready "q" [Model bare_paper; Model anonymous_paper] "phd" 0
  = (inl (TypeError "can only join an iterable"), 0) /\
  Routes.analyze_papers invalid ready "2025-01-01T00:00:00"
    (request_for [bare_paper; anonymous_paper] "phd") 0 =
    (inl {| Routes.status_code := 500;
            Routes.detail := "Failed to analyze papers: can only join an iterable" |}, 0).
Proof.
  apply (authors_none_fails invalid ready "2025-01-01T00:00:00"
           (request_for [bare_paper; anonymous_paper] "phd") 0).
  reflexivity.
Defined.

(** ** Upper case and lower case of a method name *)

Local Ltac ranges H :=
  unfold between in H;
  rewrite ?orb_true_iff, ?orb_false_iff, ?andb_true_iff, ?andb_false_iff,
    ?N.leb_le, ?N.leb_gt in H.

(** The upper-case form of a character: the character itself, the
    character 32 places below it, a code point above U+00FF, or [SS] for
    the sharp s. *)
Lemma upper_char_shape (c : ascii) :
  (upper_char c = [83%N; 83%N] /\ code c = 223%N) \/
  exists x, upper_char c = [x] /\
            ((x = code c /\ ~ (97 <= x <= 122)%N) \/
             (x + 32 = code c /\ 97 <= code c)%N \/
             (255 < x /\ 181 <= code c)%N).
Proof.
  unfold upper_char.
  destruct (between 97 122 c || between 224 246 c || between 248 254 c) eqn:H1.
  { right. eexists. split; [reflexivity|]. ranges H1. lia. }
  destruct (between 181 181 c) eqn:H2.
  { right. eexists. split; [reflexivity|]. ranges H2. lia. }
  destruct (between 223 223 c) eqn:H3.
  { left. split; [reflexivity|]. ranges H3. lia. }
  destruct (between 255 255 c) eqn:H4.
  { right. eexists. split; [reflexivity|]. ranges H4. lia. }
  right. eexists. split; [reflexivity|]. ranges H1. lia.
Qed.

Lemma upper_of_code (c : ascii) (n : N) :
  (65 <= n <= 90)%N -> code c = n \/ code c = (n + 32)%N ->
  upper_char c = [n].
Proof.
  intros Hn Hc.
  destruct (upper_char_shape c) as [[_ Hss]|(x & -> & Hcode)]; [lia|].
  f_equal. lia.
Qed.

Lemma lower_letter (c : ascii) (n : N) :
  (65 <= n <= 90)%N -> lower_char c = ascii_of_N (n + 32) ->
  code c = n \/ code c = (n + 32)%N.
Proof.
  intros Hn. unfold lower_char.
  destruct (isupper c) eqn:Hup; unfold isupper in Hup; ranges Hup; intros H.
  - apply (f_equal code) in H. unfold code in H at 1 2.
    rewrite !N_ascii_embedding in H by (unfold code in *; lia).
    unfold code in *. lia.
  - right. rewrite H. apply N_ascii_embedding. lia.
Qed.

(** Every spelling of [post] has the upper-case form [POST]. *)
Lemma upper_post (m : string) : lower m = "post" -> upper m = codes "POST".
Proof.
  change (codes "POST") with [80%N; 79%N; 83%N; 84%N]. intros H.
  destruct m as [|c1 [|c2 [|c3 [|c4 [|c5 m]]]]]; try discriminate H.
  cbn [lower] in H. injection H as H1 H2 H3 H4.
  apply (lower_letter c1 80) in H1; [|lia].
  apply (lower_letter c2 79) in H2; [|lia].
  apply (lower_letter c3 83) in H3; [|lia].
  apply (lower_letter c4 84) in H4; [|lia].
  cbn [upper].
  rewrite (upper_of_code c1 80), (upper_of_code c2 79), (upper_of_code c3 83),
    (upper_of_code c4 84) by (lia || assumption).
  reflexivity.
Qed.

(** Every spelling of [get] has the upper-case form [GET]. *)
Lemma upper_get (m : string) : lower m = "get" -> upper m = codes "GET".
Proof.
  change (codes "GET") with [71%N; 69%N; 84%N]. intros H.
  destruct m as [|c1 [|c2 [|c3 [|c4 m]]]]; try discriminate H.
  cbn [lower] in H. injection H as H1 H2 H3.
  apply (lower_letter c1 71) in H1; [|lia].
  apply (lower_letter c2 69) in H2; [|lia].
  apply (lower_letter c3 84) in H3; [|lia].
  cbn [upper].
  rewrite (upper_of_code c1 71), (upper_of_code c2 69), (upper_of_code c3 84)
    by (lia || assumption).
  reflexivity.
Qed.

(** ** The communication service *)

Section ServiceFacts.
Import CommunicationService.
Context {W : Type}.
Variable AsyncClient_new : float -> AsyncClient W.

(** Property X14: [send_to_backend] chooses the request by the upper-case
    form of the method.  Every spelling of [post], in whatever letter
    case, sends the request [POST] sends, and every spelling of [get] the
    request [GET] sends.  When the upper-case form of the method is
    neither [POST] nor [GET], the [ValueError] naming the method as given
    is raised, and no request is sent. *)
Theorem send_to_backend_method (self : CommunicationService.t) (endpoint : string)
    (data : gmap string json) (method : string) (w : W) :
  (lower method = "post" ->
     send_to_backend AsyncClient_new self endpoint data method w =
     send_to_backend AsyncClient_new self endpoint data "POST" w) /\
  (lower method = "get" ->
     send_to_backend AsyncClient_new self endpoint data method w =
     send_to_backend AsyncClient_new self endpoint data "GET" w) /\
  (upper method <> codes "POST" -> upper method <> codes "GET" ->
     send_to_backend AsyncClient_new self endpoint data method w =
     (inl (ValueError ("Unsupported HTTP method: " +:+ method)), w)).
Proof.
  unfold send_to_backend. split; [|split].
  - intros H%upper_post. rewrite !try_reraise_run. unfold mbind, M_bind, bind.
    rewrite (bool_decide_eq_true_2 _ H). reflexivity.
  - intros H%upper_get. rewrite !try_reraise_run. unfold mbind, M_bind, bind.
    assert (Hp : upper method <> codes "POST").
    { rewrite H. discriminate. }
    rewrite (bool_decide_eq_false_2 _ Hp), (bool_decide_eq_true_2 _ H). reflexivity.
  - intros Hp Hg. rewrite try_reraise_run. unfold mbind, M_bind, bind.
    rewrite (bool_decide_eq_false_2 _ Hp), (bool_decide_eq_false_2 _ Hg). reflexivity.
Qed.

(** Property X15: after a request that the scraper answered without an error
    status, [request_scraping] returns the list under [papers] of the
    answer, and the empty list when the answer is an object without
    [papers]; when [papers] is [null] it raises the [TypeError] of [len],
    and when the answer is a list, the [AttributeError] of [get]. *)
Theorem request_scraping_papers (self : CommunicationService.t) (query : string)
    (max_results : Z) (response : Response) (w w' : W) :
  post (AsyncClient_new (timeout self)) (scraper_url self +:+ "/scrape")
    (JDict {[ "query" := JStr query; "max_results" := JInt max_results ]}) w
  = (inr response, w') ->
  raise_for_status response = inr tt ->
  (forall d l, json_ response = inr (JDict d) -> d !! "papers" = Some (JList l) ->
     request_scraping AsyncClient_new self query max_results w = (inr (JList l), w')) /\
  (forall d, json_ response = inr (JDict d) -> d !! "papers" = None ->
     request_scraping AsyncClient_new self query max_results w = (inr (JList []), w')) /\
  (forall d, json_ response = inr (JDict d) -> d !! "papers" = Some JNull ->
     request_scraping AsyncClient_new self query max_results w =
     (inl (TypeError "object of type 'NoneType' has no len()"), w')) /\
  (forall l, json_ response = inr (JList l) ->
     request_scraping AsyncClient_new self query max_results w =
     (inl (AttributeError "'list' object has no attribute 'get'"), w')).
Proof.
  intros Hpost Hstatus.
  unfold request_scraping. rewrite try_reraise_run.
  unfold mbind, mret, M_bind, M_ret, bind, ret, lift. cbv zeta.
  rewrite Hpost, Hstatus.
  split; [|split; [|split]].
  - intros d l -> Hd. cbn [json_get]. rewrite Hd. reflexivity.
  - intros d -> Hd. cbn [json_get]. rewrite Hd. reflexivity.
  - intros d -> Hd. cbn [json_get]. rewrite Hd. reflexivity.
  - intros l ->. reflexivity.
Qed.



End ServiceFacts.

(** The theorem at three methods. *)
Lemma send_to_backend_method_witness :
  CommunicationService.send_to_backend (DemoHttp.server CommunicationService.JNull)
    DemoHttp.service "/api/results" ∅ "Post" 0 =
  CommunicationService.send_to_backend (DemoHttp.server CommunicationService.JNull)
    DemoHttp.service "/api/results" ∅ "POST" 0 /\
  CommunicationService.send_to_backend (DemoHttp.server CommunicationService.JNull)
    DemoHttp.service "/api/results" ∅ "get" 0 =
  CommunicationService.send_to_backend (DemoHttp.server CommunicationService.JNull)
    DemoHttp.service "/api/results" ∅ "GET" 0 /\
  CommunicationService.send_to_backend (DemoHttp.server CommunicationService.JNull)
    DemoHttp.service "/api/results" ∅ "DELETE" 0 =
  (inl (ValueError "Unsupported HTTP method: DELETE"), 0).
Proof.
  split; [|split].
  - destruct (send_to_backend_method (DemoHttp.server CommunicationService.JNull)
                DemoHttp.service "/api/results" ∅ "Post" 0) as (Hpost & _ & _).
    apply Hpost. reflexivity.
  - destruct (send_to_backend_method (DemoHttp.server CommunicationService.JNull)
                DemoHttp.service "/api/results" ∅ "get" 0) as (_ & Hget & _).
    apply Hget. reflexivity.
  - destruct (send_to_backend_method (DemoHttp.server CommunicationService.JNull)
                DemoHttp.service "/api/results" ∅ "DELETE" 0) as (_ & _ & Hother).
    apply Hother; intros H; vm_compute in H; discriminate H.
Defined.

(** The theorem at four answers of the scraper. *)
Lemma request_scraping_papers_witness :
  CommunicationService.request_scraping
    (DemoHttp.server (CommunicationService.JDict
                        {[ "papers" := CommunicationService.JList [] ]}))
    DemoHttp.service "q" 10 0
  = (inr (CommunicationService.JList []), 1) /\
  CommunicationService.request_scraping
    (DemoHttp.server (CommunicationService.JDict ∅)) DemoHttp.service "q" 10 0
  = (inr (CommunicationService.JList []), 1) /\
  CommunicationService.request_scraping
    (DemoHttp.server (CommunicationService.JDict
                        {[ "papers" := CommunicationService.JNull ]}))
    DemoHttp.service "q" 10 0
  = (inl (TypeError "object of type 'NoneType' has no len()"), 1) /\
  CommunicationService.request_scraping
    (DemoHttp.server (CommunicationService.JList [])) DemoHttp.service "q" 10 0
  = (inl (AttributeError "'list' object has no attribute 'get'"), 1).
Proof.
  split; [|split; [|split]].
  - destruct (request_scraping_papers
                (DemoHttp.server (CommunicationService.JDict
                                    {[ "papers" := CommunicationService.JList [] ]}))
                DemoHttp.service "q" 10 _ 0 1 eq_refl eq_refl) as (Hlist & _).
    apply (Hlist {[ "papers" := CommunicationService.JList [] ]}); reflexivity.
  - destruct (request_scraping_papers
                (DemoHttp.server (CommunicationService.JDict ∅))
                DemoHttp.service "q" 10 _ 0 1 eq_refl eq_refl) as (_ & Hnone & _).
    apply (Hnone ∅); reflexivity.
  - destruct (request_scraping_papers
                (DemoHttp.server (CommunicationService.JDict
                                    {[ "papers" := CommunicationService.JNull ]}))
                DemoHttp.service "q" 10 _ 0 1 eq_refl eq_refl) as (_ & _ & Hnull & _).
    apply (Hnull {[ "papers" := CommunicationService.JNull ]}); reflexivity.
  - destruct (request_scraping_papers
                (DemoHttp.server (CommunicationService.JList []))
                DemoHttp.service "q" 10 _ 0 1 eq_refl eq_refl) as (_ & _ & _ & Hlist).
    apply (Hlist []). reflexivity.
Defined.



(** ** The settings *)

(** Property X18: [Settings.__init__] changes only [LLM_API_KEY] and [LLM_MODEL].
    It changes nothing when [LLM_API_KEY] is given, or when the provider is
    neither [openai] nor [gemini]; so a given general key keeps the model
    as loaded, also when it is the default of the other provider.  Without
    the general key, the key of the provider becomes the key.  Resolving
    resolved settings changes nothing. *)
Theorem settings_init_resolution (s : Settings.t) :
  (Settings.LLM_PROVIDER (Settings.__init__ s) = Settings.LLM_PROVIDER s /\
   Settings.OPENAI_API_KEY (Settings.__init__ s) = Settings.OPENAI_API_KEY s /\
   Settings.OPENAI_MODEL (Settings.__init__ s) = Settings.OPENAI_MODEL s /\
   Settings.GEMINI_API_KEY (Settings.__init__ s) = Settings.GEMINI_API_KEY s /\
   Settings.GEMINI_MODEL (Settings.__init__ s) = Settings.GEMINI_MODEL s) /\
  (Settings.LLM_API_KEY s <> "" -> Settings.__init__ s = s) /\
  (Settings.LLM_PROVIDER s <> "openai" -> Settings.LLM_PROVIDER s <> "gemini" ->
     Settings.__init__ s = s) /\
  (Settings.LLM_API_KEY s = "" ->
     (Settings.LLM_PROVIDER s = "openai" ->
        Settings.LLM_API_KEY (Settings.__init__ s) = Settings.OPENAI_API_KEY s) /\
     (Settings.LLM_PROVIDER s = "gemini" ->
        Settings.LLM_API_KEY (Settings.__init__ s) = Settings.GEMINI_API_KEY s)) /\
  Settings.__init__ (Settings.__init__ s) = Settings.__init__ s.
Proof.
  destruct s as [provider key model okey omodel gkey gmodel].
  unfold Settings.__init__, Settings.set_LLM_API_KEY, Settings.set_LLM_MODEL,
    Settings.empty.
  cbn [Settings.LLM_PROVIDER Settings.LLM_API_KEY Settings.LLM_MODEL
       Settings.OPENAI_API_KEY Settings.OPENAI_MODEL
       Settings.GEMINI_API_KEY Settings.GEMINI_MODEL].
  split; [|split; [|split; [|split]]].
  - repeat match goal with
           | |- context [String.eqb ?a ?b] => destruct (String.eqb a b)
           end; cbn; auto.
  - intros Hkey. apply String.eqb_neq in Hkey. rewrite Hkey, !andb_false_r. reflexivity.
  - intros Ho%String.eqb_neq Hg%String.eqb_neq. rewrite Ho, Hg. reflexivity.
  - intros ->. split; intros ->; cbn [String.eqb Ascii.eqb Bool.eqb andb];
      repeat match goal with
             | |- context [String.eqb ?a ?b] => destruct (String.eqb a b)
             end; reflexivity.
  - destruct (String.eqb provider "openai") eqn:Ho;
      destruct (String.eqb provider "gemini") eqn:Hg;
      destruct (String.eqb key "") eqn:Hk; cbn [andb orb];
      repeat (cbn [Settings.LLM_PROVIDER Settings.LLM_API_KEY Settings.LLM_MODEL
                   Settings.OPENAI_API_KEY Settings.OPENAI_MODEL
                   Settings.GEMINI_API_KEY Settings.GEMINI_MODEL andb orb] in *;
              match goal with
              | H : ?b = _ |- context [if ?b then _ else _] => rewrite H
              | H : String.eqb ?a ?c = _ |- context [String.eqb ?a ?c] => rewrite H
              | |- context [if ?b then _ else _] => destruct b eqn:?
              end);
      cbn [Settings.LLM_PROVIDER Settings.LLM_API_KEY Settings.LLM_MODEL
           Settings.OPENAI_API_KEY Settings.OPENAI_MODEL
           Settings.GEMINI_API_KEY Settings.GEMINI_MODEL andb orb] in *;
      first [ reflexivity
            | congruence
            | rewrite ?Ho, ?Hg in *; cbn [andb orb] in *; congruence ].
Qed.

(** The theorem at four settings. *)
Lemma settings_init_resolution_witness :
  Settings.__init__ keyed_settings = keyed_settings /\
  Settings.__init__ other_settings = other_settings /\
  Settings.LLM_API_KEY (Settings.__init__ openai_settings) = "sk-1" /\
  Settings.LLM_API_KEY (Settings.__init__ gemini_settings) = "".
Proof.
  split; [|split; [|split]].
  - destruct (settings_init_resolution keyed_settings) as (_ & Hkey & _).
    apply Hkey. discriminate.
  - destruct (settings_init_resolution other_settings) as (_ & _ & Hother & _).
    apply Hother; discriminate.
  - destruct (settings_init_resolution openai_settings) as (_ & _ & _ & Hnokey & _).
    destruct Hnokey as [Hopenai _]; [reflexivity|]. apply Hopenai. reflexivity.
  - destruct (settings_init_resolution gemini_settings) as (_ & _ & _ & Hnokey & _).
    destruct Hnokey as [_ Hgemini]; [reflexivity|]. apply Hgemini. reflexivity.
Defined.

(** ** The gaps, parsed again *)

Lemma split_on_none (sep : ascii) (s : string) :
  all_chars (fun c => negb (Ascii.eqb c sep)) s = true -> split_on sep s = [s].
Proof.
  induction s as [|c s IH]; [reflexivity|].
  cbn [all_chars split_on]. intros [Hc Hs]%andb_true_iff.
  apply negb_true_iff in Hc. rewrite Hc, (IH Hs). reflexivity.
Qed.

Lemma split_on_app (sep : ascii) (piece rest : string) :
  all_chars (fun c => negb (Ascii.eqb c sep)) piece = true ->
  split_on sep (piece +:+ String sep rest) = piece :: split_on sep rest.
Proof.
  induction piece as [|c piece IH]; intros Hp.
  - rewrite app_empty_l. cbn [split_on]. rewrite Ascii.eqb_refl. reflexivity.
  - cbn [all_chars] in Hp. apply andb_true_iff in Hp as [Hc Hp].
    apply negb_true_iff in Hc. rewrite app_String. cbn [split_on].
    rewrite Hc, (IH Hp). reflexivity.
Qed.

(** Splitting at the separator what was joined by it gives the pieces
    back. *)
Lemma split_on_join_pieces (sep : ascii) (pieces : list string) :
  pieces <> [] ->
  Forall (fun piece => all_chars (fun c => negb (Ascii.eqb c sep)) piece = true) pieces ->
  split_on sep (join (String sep "") pieces) = pieces.
Proof.
  intros Hne Hpieces. induction Hpieces as [|p ps Hp Hps IH]; [congruence|].
  destruct ps as [|p' ps'].
  - apply split_on_none, Hp.
  - rewrite join_cons by discriminate.
    change (String sep "" +:+ join (String sep "") (p' :: ps'))
      with (String sep (join (String sep "") (p' :: ps'))).
    rewrite (split_on_app sep p _ Hp), IH by discriminate. reflexivity.
Qed.

Lemma lstrip_fixed (s : string) : s = "" \/ starts_blank s = false -> lstrip s = s.
Proof.
  destruct s as [|c s]; [reflexivity|]. intros [H|H]; [discriminate H|].
  cbn [starts_blank] in H. cbn [lstrip]. rewrite H. reflexivity.
Qed.

Lemma rstrip_starts (s : string) :
  s = "" \/ starts_blank s = false -> rstrip s = "" \/ starts_blank (rstrip s) = false.
Proof.
  destruct s as [|c s]; [left; reflexivity|]. intros [H|H]; [discriminate H|].
  cbn [starts_blank] in H. right. cbn [rstrip].
  destruct (rstrip s); [rewrite H|]; exact H.
Qed.

(** Trimming twice is trimming once. *)
Lemma strip_idem (s : string) : strip (strip s) = strip s.
Proof.
  unfold strip.
  destruct (lstrip_spec s) as (l & _ & _ & Hhead).
  assert (Hl : lstrip s = "" \/ starts_blank (lstrip s) = false) by exact Hhead.
  rewrite (lstrip_fixed (rstrip (lstrip s))) by (apply rstrip_starts, Hl).
  apply rstrip_idem.
Qed.

Lemma digit_led_strip (line : string) : digit_led (strip line) = digit_led line.
Proof. unfold digit_led. rewrite strip_idem. reflexivity. Qed.

(** What the numbered lines have in common. *)
Lemma numbered_lines_gaps (lines : list string) :
  Forall (fun line => all_chars (fun c => negb (Ascii.eqb c newline)) line = true) lines ->
  Forall (fun gap => strip gap = gap /\ digit_led gap = true /\
                     all_chars (fun c => negb (Ascii.eqb c newline)) gap = true)
         (numbered_lines lines).
Proof.
  rewrite numbered_lines_filter_map.
  induction 1 as [|line lines Hline Hlines IH]; cbn [List.filter List.map]; [constructor|].
  destruct (digit_led line) eqn:Hd; [|exact IH].
  cbn [List.map]. constructor; [|exact IH].
  split; [apply strip_idem|]. split; [rewrite digit_led_strip; exact Hd|].
  apply all_chars_strip, Hline.
Qed.

Lemma numbered_lines_fixed (gaps : list string) :
  Forall (fun gap => strip gap = gap /\ digit_led gap = true /\
                     all_chars (fun c => negb (Ascii.eqb c newline)) gap = true) gaps ->
  numbered_lines gaps = gaps.
Proof.
  rewrite numbered_lines_filter_map.
  induction 1 as [|gap gaps (Hs & Hd & _) Hgaps IH]; [reflexivity|].
  cbn [List.filter]. rewrite Hd. cbn [List.map]. rewrite Hs, IH. reflexivity.
Qed.

(** Property X19: the gaps parsed from the joined gaps are the gaps: writing the
    result of [parse_gaps] as lines and parsing these lines again gives
    the same list.  When the response has a digit-led line, every gap is
    trimmed, starts with a digit and holds no newline. *)
Theorem parse_gaps_stable (raw : string) :
  parse_gaps (join NL (parse_gaps raw)) = parse_gaps raw /\
  (digit_led_lines raw <> [] ->
   Forall (fun gap => strip gap = gap /\ digit_led gap = true /\
                      all_chars (fun c => negb (Ascii.eqb c newline)) gap = true)
          (parse_gaps raw)).
Proof.
  pose proof (numbered_lines_gaps _ (split_on_pieces newline raw)) as Hgaps.
  unfold digit_led_lines. rewrite <- numbered_lines_filter_map.
  unfold parse_gaps at 2 3 4.
  destruct (numbered_lines (split_on newline raw)) as [|gap gaps] eqn:Hlines.
  - split; [|congruence]. change (join NL [raw]) with raw.
    unfold parse_gaps. rewrite Hlines. reflexivity.
  - split; [|intros _; exact Hgaps].
    unfold parse_gaps, NL.
    rewrite split_on_join_pieces, (numbered_lines_fixed _ Hgaps); [reflexivity|discriminate|].
    eapply Forall_impl; [exact Hgaps|]. intros g (_ & _ & Hg). exact Hg.
Qed.

(** The theorem at a response with a heading and two gaps. *)
Lemma parse_gaps_stable_witness :
  Forall (fun gap => strip gap = gap /\ digit_led gap = true /\
                     all_chars (fun c => negb (Ascii.eqb c newline)) gap = true)
         (parse_gaps ("Gaps:" +:+ NL +:+ "  1. One " +:+ NL +:+ "2. Two")).
Proof.
  destruct (parse_gaps_stable ("Gaps:" +:+ NL +:+ "  1. One " +:+ NL +:+ "2. Two"))
    as [_ Hgaps].
  apply Hgaps. vm_compute. discriminate.
Defined.

(** ** Plain mappings as papers *)

Lemma str_items_first_non_str (l : list pyval) :
  forall i k v,
    l !! k = Some v -> is_str v = false ->
    Forall (fun x => is_str x = true) (take k l) ->
    str_items i l =
      inl (TypeError ("sequence item " +:+ pretty (i + k)%nat
                      +:+ ": expected str instance, " +:+ type_name v +:+ " found")).
Proof.
  induction l as [|x l IH]; intros i k v Hk Hv Hbefore; [discriminate Hk|].
  destruct k as [|k].
  - injection Hk as ->. rewrite Nat.add_0_r.
    destruct v; try discriminate Hv; reflexivity.
  - cbn [take] in Hbefore. inversion Hbefore as [|? ? Hx Hrest]; subst.
    destruct x; try discriminate Hx. cbn [str_items].
    rewrite (IH (S i) k v Hk Hv Hrest), Nat.add_succ_r. reflexivity.
Qed.

(** Property X20: a plain mapping whose [authors] is a text, not a list, is
    accepted, and the text is written character by character, the
    characters separated by a comma and a space; a mapping without
    [authors] is written with no author. *)
Theorem format_paper_authors_text (i : nat) (d : gmap string pyval) :
  (forall names, d !! "authors" = Some (PStr names) ->
     format_paper i (Mapping d) = inr (mapping_entry i d (join ", " (chars names)))) /\
  (d !! "authors" = None ->
     format_paper i (Mapping d) = inr (mapping_entry i d "")).
Proof.
  unfold format_paper, mapping_entry. split.
  - intros names Hnames. unfold get at 1. rewrite Hnames. reflexivity.
  - intros Hnone. unfold get at 1. rewrite Hnone. reflexivity.
Qed.

(** The theorem at a mapping with a text for its authors, and at one
    without authors. *)
Lemma format_paper_authors_text_witness :
  format_paper 1 (Mapping {[ "title" := PStr "T"; "authors" := PStr "Ann" ]})
  = inr (mapping_entry 1 {[ "title" := PStr "T"; "authors" := PStr "Ann" ]} "A, n, n") /\
  format_paper 1 (Mapping {[ "title" := PStr "T" ]})
  = inr (mapping_entry 1 {[ "title" := PStr "T" ]} "").
Proof.
  split.
  - destruct (format_paper_authors_text 1
                {[ "title" := PStr "T"; "authors" := PStr "Ann" ]}) as [Htext _].
    apply (Htext "Ann"). reflexivity.
  - destruct (format_paper_authors_text 1 {[ "title" := PStr "T" ]}) as [_ Hnone].
    apply Hnone. reflexivity.
Defined.

(** Property X21: a plain mapping whose list of authors holds a value that is not
    a text makes [_format_papers] fail for the paper: the [TypeError]
    names the position of the first such value in the list and its
    type. *)
Theorem format_paper_authors_non_str (i : nat) (d : gmap string pyval)
    (l : list pyval) (k : nat) (v : pyval) :
  d !! "authors" = Some (PList l) ->
  l !! k = Some v -> is_str v = false ->
  Forall (fun x => is_str x = true) (take k l) ->
  format_paper i (Mapping d) =
    inl (TypeError ("sequence item " +:+ pretty k
                    +:+ ": expected str instance, " +:+ type_name v +:+ " found")).
Proof.
  intros Hauthors Hk Hv Hbefore. unfold format_paper.
  rewrite (get_lookup d "authors" (PList l) _ Hauthors). unfold join_val.
  rewrite (str_items_first_non_str l 0 k v Hk Hv Hbefore). reflexivity.
Qed.

(** The theorem at a list of authors whose second item is [None]. *)
Lemma format_paper_authors_non_str_witness :
  format_paper 1 (Mapping {[ "authors" := PList [PStr "Ann"; PNone] ]}) =
    inl (TypeError "sequence item 1: expected str instance, NoneType found").
Proof.
  apply (format_paper_authors_non_str 1 {[ "authors" := PList [PStr "Ann"; PNone] ]}
           [PStr "Ann"; PNone] 1 PNone).
  - reflexivity.
  - reflexivity.
  - reflexivity.
  - repeat constructor.
Defined.

(** ** Acceptance by the validator *)

(** Property X22: [_validate_output] accepts a record exactly when it has
    [summary], [research_gaps] and [simplified_explanation] and the gaps
    are a list; the values of the other two fields are not looked at.  It
    never returns [False]. *)
Theorem validate_output_accepts (output : gmap string pyval) :
  (_validate_output output = inr true <->
   exists summary gaps explanation,
     output !! "summary" = Some summary /\
     output !! "research_gaps" = Some (PList gaps) /\
     output !! "simplified_explanation" = Some explanation) /\
  _validate_output output <> inr false.
Proof.
  unfold _validate_output, required_fields, check_fields, getitem.
  destruct (output !! "summary") as [s|] eqn:Hs; cbn [bool_decide decide_rel].
  2:{ rewrite bool_decide_eq_true_2 by reflexivity.
      split; [|discriminate]. split; [discriminate|].
      intros (? & ? & ? & [=] & _). }
  rewrite bool_decide_eq_false_2 by discriminate.
  destruct (output !! "research_gaps") as [g|] eqn:Hg.
  2:{ rewrite bool_decide_eq_true_2 by reflexivity.
      split; [|discriminate]. split; [discriminate|].
      intros (? & ? & ? & _ & [=] & _). }
  rewrite bool_decide_eq_false_2 by discriminate.
  destruct (output !! "simplified_explanation") as [x|] eqn:Hx.
  2:{ rewrite bool_decide_eq_true_2 by reflexivity.
      split; [|discriminate]. split; [discriminate|].
      intros (? & ? & ? & _ & _ & [=]). }
  rewrite bool_decide_eq_false_2 by discriminate.
  destruct g as [| | |l|]; cbn [is_list negb];
    (split; [|discriminate]); split; try discriminate;
    try (intros (? & ? & ? & _ & [=] & _); fail).
  - intros _. exists s, l, x. auto.
  - reflexivity.
Qed.

(** ** The processor of the settings *)

(** Property X23: the processor built from the resolved settings of the OpenAI
    provider without a general key is set up with [OPENAI_API_KEY], and
    the one of the Gemini provider with [GEMINI_API_KEY]; with a general
    key the set-up of the provider gets that key and the model as loaded.
    For any other provider no set-up is run. *)
Theorem processor_of_settings {W : Type} (s : Settings.t)
    (_init_gemini _init_openai : string -> string -> option (client W)) :
  let resolved := Settings.__init__ s in
  let processor :=
    init (Settings.LLM_PROVIDER resolved) (Settings.LLM_API_KEY resolved)
      (Settings.LLM_MODEL resolved) _init_gemini _init_openai in
  (Settings.LLM_PROVIDER s = "openai" -> Settings.LLM_API_KEY s = "" ->
     client_ processor = _init_openai (Settings.OPENAI_API_KEY s) (model processor) /\
     api_key processor = Settings.OPENAI_API_KEY s) /\
  (Settings.LLM_PROVIDER s = "gemini" -> Settings.LLM_API_KEY s = "" ->
     client_ processor = _init_gemini (Settings.GEMINI_API_KEY s) (model processor) /\
     api_key processor = Settings.GEMINI_API_KEY s) /\
  (Settings.LLM_API_KEY s <> "" ->
     api_key processor = Settings.LLM_API_KEY s /\
     model processor = Settings.LLM_MODEL s) /\
  (Settings.LLM_PROVIDER s <> "openai" -> Settings.LLM_PROVIDER s <> "gemini" ->
     client_ processor = None).
Proof.
  destruct s as [provider key model okey omodel gkey gmodel].
  cbv zeta.
  unfold Settings.__init__, Settings.set_LLM_API_KEY, Settings.set_LLM_MODEL,
    Settings.empty, init.
  cbn [Settings.LLM_PROVIDER Settings.LLM_API_KEY Settings.LLM_MODEL
       Settings.OPENAI_API_KEY Settings.OPENAI_MODEL
       Settings.GEMINI_API_KEY Settings.GEMINI_MODEL].
  split; [|split; [|split]].
  - intros -> ->. cbn [String.eqb Ascii.eqb Bool.eqb andb].
    destruct (String.eqb model "" || String.eqb model "gemini-2.5-flash");
      split; reflexivity.
  - intros -> ->. cbn [String.eqb Ascii.eqb Bool.eqb andb].
    destruct (String.eqb model "" || String.eqb model "gpt-4"); split; reflexivity.
  - intros Hkey%String.eqb_neq. rewrite Hkey, !andb_false_r. split; reflexivity.
  - intros Ho%String.eqb_neq Hg%String.eqb_neq. rewrite Ho, Hg. cbn [andb].
    cbn [Settings.LLM_PROVIDER Settings.LLM_API_KEY Settings.LLM_MODEL client_].
    rewrite Ho, Hg. reflexivity.
Qed.

(** The theorem at four settings. *)
Lemma processor_of_settings_witness :
  api_key (init (Settings.LLM_PROVIDER (Settings.__init__ openai_settings))
             (Settings.LLM_API_KEY (Settings.__init__ openai_settings))
             (Settings.LLM_MODEL (Settings.__init__ openai_settings))
             (fun _ _ => None) (fun _ _ => Some echo)) = "sk-1" /\
  api_key (init (Settings.LLM_PROVIDER (Settings.__init__ gemini_settings))
             (Settings.LLM_API_KEY (Settings.__init__ gemini_settings))
             (Settings.LLM_MODEL (Settings.__init__ gemini_settings))
             (fun _ _ => Some echo) (fun _ _ => None)) = "" /\
  model (init (Settings.LLM_PROVIDER (Settings.__init__ keyed_settings))
           (Settings.LLM_API_KEY (Settings.__init__ keyed_settings))
           (Settings.LLM_MODEL (Settings.__init__ keyed_settings))
           (fun _ _ => None) (fun _ _ => Some echo)) = "gemini-2.5-flash" /\
  client_ (init (Settings.LLM_PROVIDER (Settings.__init__ other_settings))
             (Settings.LLM_API_KEY (Settings.__init__ other_settings))
             (Settings.LLM_MODEL (Settings.__init__ other_settings))
             (fun _ _ => Some echo) (fun _ _ => Some echo)) = None.
Proof.
  split; [|split; [|split]].
  - destruct (processor_of_settings openai_settings (fun _ _ => None)
                (fun _ _ => Some echo)) as (Hopenai & _).
    apply Hopenai; reflexivity.
  - destruct (processor_of_settings gemini_settings (fun _ _ => Some echo)
                (fun _ _ => None)) as (_ & Hgemini & _).
    apply Hgemini; reflexivity.
  - destruct (processor_of_settings keyed_settings (fun _ _ => None)
                (fun _ _ => Some echo)) as (_ & _ & Hkey & _).
    apply Hkey. discriminate.
  - destruct (processor_of_settings other_settings (fun _ _ => Some echo)
                (fun _ _ => Some echo)) as (_ & _ & _ & Hother).
    apply Hother; discriminate.
Defined.
